(** * ckanext-shift: the submit / hook protocol of [ckanext/shift/action.py]

    A shallow embedding of the two actions [shift_submit] and [shift_hook]
    and the properties of the state reconciliation they implement.

    The actions are orchestration code: everything they touch (validation,
    authorization, the resource and task-status tables, the plugin registry,
    the job queue, the clock, the date parsers) belongs to the CKAN host or
    to the Python library.  Those collaborators are gathered in the record
    [Platform]; the actions are translated statement by statement over it,
    in a monad that threads the mutable world and Python exceptions. *)

From Stdlib Require Import String List ZArith Bool Lia.
Import ListNotations.
Local Open Scope string_scope.
Local Open Scope Z_scope.

(** ** Python values and exceptions *)

(** The exceptions the two actions can meet.  [HostError] stands for any
    other exception a host action may raise. *)
Inductive exn : Type :=
| ValidationError (errors : list (string * string))
| NotAuthorized
| NotFound
| KeyError (key : string)
| ValueError
| TypeError
| OverflowError
| UnboundLocalError (name : string)
| HostError (msg : string).

(** JSON text is represented by its abstract syntax: the two JSON texts the
    code produces are flat objects, ['{}'] (no member) and [json.dumps] of
    a dict of strings and [None]. *)
Inductive json_atom : Type :=
| JNull
| JString (s : string).

Definition json : Type := list (string * json_atom).

(** The two shapes of value the code stores under ['last_updated']:
    a string ([str(datetime.datetime.utcnow())]) and a one-element tuple
    holding such a string ([str(datetime.datetime.utcnow()),]). *)
Inductive pyvalue : Type :=
| PyStr (s : string)
| PyTuple1 (s : string).

(** Truthiness of an optional string, as [d.get(k)] is tested by [if] and
    [and]: a missing key, [None] and the empty string are false. *)
Definition truthy (v : option string) : bool :=
  match v with
  | Some s => negb (s =? "")%string
  | None => false
  end.

(** ** Data model *)

(** The dict handed to [task_status_update]; ['id'] is optional. *)
Record task : Type := mk_task {
  task_id : option string;
  task_entity_id : string;
  task_entity_type : string;
  task_task_type : string;
  task_key : string;
  task_state : string;
  task_value : json;
  task_error : json;
  task_last_updated : pyvalue }.

(** A row of the host's task-status table, as [task_status_show] returns
    it: the same fields, with an id. *)
Record task_status : Type := mk_task_status {
  row_id : string;
  row_entity_id : string;
  row_entity_type : string;
  row_task_type : string;
  row_key : string;
  row_state : string;
  row_value : json;
  row_error : json;
  row_last_updated : pyvalue }.

Record resource : Type := mk_resource {
  res_package_id : string;
  res_url : option string;
  res_last_modified : option string }.

Record package : Type := mk_package {
  pkg_id : string }.

Record user : Type := mk_user {
  user_apikey : option string }.

(** [data_dict] of [shift_submit]. *)
Record submit_dict : Type := mk_submit_dict {
  dd_resource_id : option string;
  dd_set_url_type : option bool;
  dd_ignore_hash : option bool }.

(** The ['metadata'] object the worker sends back to [shift_hook]. *)
Record hook_metadata : Type := mk_hook_metadata {
  md_resource_id : option string;
  md_task_created : option string;
  md_original_url : option string }.

(** [data_dict] of [shift_hook]. *)
Record hook_dict : Type := mk_hook_dict {
  hd_metadata : option hook_metadata;
  hd_status : option string }.

(** The ['metadata'] object [shift_submit] builds for the worker. *)
Record job_metadata : Type := mk_job_metadata {
  jm_ignore_hash : bool;
  jm_ckan_url : string;
  jm_resource_id : string;
  jm_set_url_type : bool;
  jm_task_created : pyvalue;
  jm_original_url : option string }.

(** The [data] dict passed to [enqueue_job]. *)
Record job_request : Type := mk_job_request {
  job_api_key : string;
  job_type : string;
  job_result_url : string;
  job_metadata_of : job_metadata }.

(** A validation schema, applied by [_validate]: the converted dict and the
    per-field errors. *)
Definition schema : Type := submit_dict -> submit_dict * list (string * string).

(** The [context] dict: one mutable object shared by an action, the host
    actions it calls and, in [shift_hook], the nested [shift_submit]. *)
Record call_context : Type := mk_context {
  ctx_user : option string;
  ctx_schema : option schema;
  ctx_ignore_auth : bool }.

(** A plugin implementing [IShift]. *)
Record plugin : Type := mk_plugin {
  plugin_name : string;
  can_upload : string -> bool }.

(** What the actions do to their collaborators, in the order it happens. *)
Inductive event : Type :=
| EvCanUpload (plugin_class : string) (res_id : string)
| EvAfterUpload (plugin_class : string) (r : resource) (p : package)
| EvCreateViews (r : resource) (p : package)
| EvTaskStatusUpdate (t : task)
| EvEnqueue (data : job_request).

(** ** The platform *)

(** A [datetime.datetime], as [dateutil] returns it: offset-aware or naive,
    and the instant it denotes in microseconds (the UTC instant of an aware
    datetime, the reading taken as UTC of a naive one). *)
Record datetime : Type := mk_datetime {
  dt_instant : Z;
  dt_aware : bool }.

(** [a > b] on datetimes: Python compares two naive or two aware datetimes
    and raises TypeError on a naive and an aware one. *)
Definition datetime_gt (a b : datetime) : exn + bool :=
  if Bool.eqb (dt_aware a) (dt_aware b)
  then inr (dt_instant a >? dt_instant b)
  else inl TypeError.

(** Everything outside [action.py].  Host actions and [parse_date] return
    [inl e] when they raise [e]: for [parse_date] the ValueError of a string
    it cannot read, or any other exception, such as the OverflowError of a
    date too large.  [strptime] returns [None] for its ValueError; its
    datetimes and those of the clock are naive, given by their instant in
    microseconds. *)
Record Platform : Type := mk_platform {
  (* ckanext.shift.schema.shift_submit_schema() *)
  shift_submit_schema : schema;
  (* p.toolkit.check_access(action, context, {resource_id, ...}) *)
  check_access : string -> call_context -> string -> bool;
  (* p.toolkit.get_action('resource_show')(context, {'id': id}) *)
  resource_show : call_context -> string -> exn + resource;
  (* p.toolkit.get_action('package_show')(context, {'id': id}) *)
  package_show : call_context -> string -> exn + package;
  (* p.toolkit.get_action('user_show')(context, {'id': id}) *)
  user_show : call_context -> string -> exn + user;
  (* logic.get_action('resource_create_default_resource_views') *)
  create_default_resource_views :
    call_context -> resource -> package -> exn + unit;
  (* config['ckan.site_url'] *)
  config_site_url : option string;
  (* config.get('ckanext.shift.assume_task_stale_after'), after int() *)
  config_assume_task_stale_after : option Z;
  (* p.PluginImplementations(shift_interfaces.IShift), registration order *)
  plugins : list plugin;
  (* the successive readings of datetime.datetime.utcnow() *)
  clock : nat -> Z;
  (* enqueue_job(jobs.shift_data_into_datastore, [data]): the job's id *)
  enqueue_job : list job_request -> job_request -> exn + string;
  (* the id the host gives a new task-status row *)
  new_task_id : list task_status -> string;
  (* str(datetime) *)
  datetime_str : Z -> string;
  (* datetime.datetime.strptime(s, '%Y-%m-%dT%H:%M:%S.%f') *)
  strptime : string -> option Z;
  (* dateutil.parser.parse(s) *)
  parse_date : string -> exn + datetime }.

(** ** The world and the monad of actions *)

Record world : Type := mk_world {
  w_context : call_context;
  w_tasks : list task_status;
  w_queue : list job_request;
  w_clock_reads : nat;
  w_trace : list event }.

Inductive outcome (A : Type) : Type :=
| Returns (a : A)
| Raises (e : exn).
Arguments Returns {A} a.
Arguments Raises {A} e.

(** An action runs on the world and leaves it changed, also when it
    raises: what was written before the exception stays written. *)
Definition action (A : Type) : Type := world -> outcome A * world.

Definition ret {A : Type} (a : A) : action A := fun w => (Returns a, w).

Definition raise {A : Type} (e : exn) : action A := fun w => (Raises e, w).

Definition bind {A B : Type} (m : action A) (k : A -> action B) : action B :=
  fun w =>
    match m w with
    | (Returns a, w') => k a w'
    | (Raises e, w') => (Raises e, w')
    end.

(** [try: m] with the outcome handed to the continuation, for the
    [except] clauses. *)
Definition attempt {A : Type} (m : action A) : action (outcome A) :=
  fun w => let (o, w') := m w in (Returns o, w').

Declare Scope action_scope.
Delimit Scope action_scope with action.
Notation "x <- m ;; k" := (bind m (fun x => k))
  (at level 61, m at next level, right associativity) : action_scope.
Notation "m ;; k" := (bind m (fun _ => k))
  (at level 61, right associativity) : action_scope.
Local Open Scope action_scope.

(** A host call that may raise. *)
Definition host {A : Type} (r : exn + A) : action A :=
  match r with
  | inr a => ret a
  | inl e => raise e
  end.

(** [d[key]] on an optional entry. *)
Definition getitem {A : Type} (key : string) (v : option A) : action A :=
  match v with
  | Some a => ret a
  | None => raise (KeyError key)
  end.

Definition get_context : action call_context :=
  fun w => (Returns (w_context w), w).

(** The world after the events [evs]. *)
Definition record_events (evs : list event) (w : world) : world :=
  mk_world (w_context w) (w_tasks w) (w_queue w) (w_clock_reads w)
           (w_trace w ++ evs).

Definition emit (e : event) : action unit :=
  fun w => (Returns tt, record_events [e] w).

(** The world once [context['ignore_auth']] is set. *)
Definition ignore_auth (w : world) : world :=
  mk_world (mk_context (ctx_user (w_context w)) (ctx_schema (w_context w)) true)
           (w_tasks w) (w_queue w) (w_clock_reads w) (w_trace w).

(** The world after one more reading of the clock. *)
Definition tick (w : world) : world :=
  mk_world (w_context w) (w_tasks w) (w_queue w) (S (w_clock_reads w))
           (w_trace w).

(** The world with the task-status table [rows]. *)
Definition with_tasks (rows : list task_status) (w : world) : world :=
  mk_world (w_context w) rows (w_queue w) (w_clock_reads w) (w_trace w).

(** The world with one more job on the queue. *)
Definition with_job (data : job_request) (w : world) : world :=
  mk_world (w_context w) (w_tasks w) (w_queue w ++ [data]) (w_clock_reads w)
           (w_trace w).

(** [context['ignore_auth'] = True] *)
Definition set_ignore_auth : action unit :=
  fun w => (Returns tt, ignore_auth w).

(** [datetime.datetime.utcnow()]: the next reading of the clock. *)
Definition utcnow (P : Platform) : action Z :=
  fun w => (Returns (clock P (w_clock_reads w)), tick w).

(** [datetime.timedelta(seconds=s)], in microseconds; Python refuses a
    duration of more than 999999999 days. *)
Definition timedelta_seconds (s : Z) : exn + Z :=
  if Z.abs (s / 86400) <=? 999999999 then inr (s * 1000000)
  else inl OverflowError.

(** [datetime.datetime.strptime(v, '%Y-%m-%dT%H:%M:%S.%f')] *)
Definition py_strptime (P : Platform) (v : pyvalue) : action Z :=
  match v with
  | PyStr s =>
      match strptime P s with
      | Some d => ret d
      | None => raise ValueError
      end
  | PyTuple1 _ => raise TypeError
  end.

(** [parse_date(s)] *)
Definition py_parse_date (P : Platform) (s : string) : action datetime :=
  host (parse_date P s).

(** ** The host's task-status table

    One row per (entity_id, task_type, key): the host looks a row up by
    the id of the dict when it has one, by that triple otherwise, and
    creates a row only when none is found. *)

Definition same_key (entity_id task_type key : string) (r : task_status) : bool :=
  ((row_entity_id r =? entity_id) && (row_task_type r =? task_type)
   && (row_key r =? key))%string.

Definition row_of_task (id : string) (t : task) : task_status :=
  mk_task_status id (task_entity_id t) (task_entity_type t) (task_task_type t)
                 (task_key t) (task_state t) (task_value t) (task_error t)
                 (task_last_updated t).

Definition set_tasks (rows : list task_status) : action unit :=
  fun w => (Returns tt, with_tasks rows w).

(** Replace the rows that satisfy [sel] by [t], keeping their ids. *)
Fixpoint overwrite (sel : task_status -> bool) (t : task)
         (rows : list task_status) : list task_status :=
  match rows with
  | [] => []
  | r :: rows' =>
      (if sel r then row_of_task (row_id r) t else r) :: overwrite sel t rows'
  end.

(** [p.toolkit.get_action('task_status_show')(context, {...})] *)
Definition task_status_show (entity_id task_type key : string)
  : action task_status :=
  fun w =>
    match find (same_key entity_id task_type key) (w_tasks w) with
    | Some r => (Returns r, w)
    | None => (Raises NotFound, w)
    end.

(** [p.toolkit.get_action('task_status_update')(context, task)] *)
Definition task_status_update (P : Platform) (t : task) : action unit :=
  emit (EvTaskStatusUpdate t) ;;
  fun w =>
    let rows := w_tasks w in
    match task_id t with
    | Some id =>
        if existsb (fun r => (row_id r =? id)%string) rows
        then set_tasks (overwrite (fun r => (row_id r =? id)%string) t rows) w
        else (Raises NotFound, w)
    | None =>
        let sel := same_key (task_entity_id t) (task_task_type t) (task_key t) in
        if existsb sel rows
        then set_tasks (overwrite sel t rows) w
        else set_tasks (rows ++ [row_of_task (new_task_id P rows) t]) w
    end.

(** [enqueue_job(jobs.shift_data_into_datastore, [data])]: on success the
    request is on the queue and the job's id is returned. *)
Definition py_enqueue_job (P : Platform) (data : job_request) : action string :=
  fun w =>
    match enqueue_job P (w_queue w) data with
    | inr job_id =>
        (Returns job_id, record_events [EvEnqueue data] (with_job data w))
    | inl e => (Raises e, w)
    end.

(** ** [shift_submit] *)

(** What lines 52-71 leave in scope. *)
Record resolved : Type := mk_resolved {
  rs_data_dict : submit_dict;
  rs_res_id : string;
  rs_resource_dict : resource;
  rs_site_url : string;
  rs_user : user }.

Definition nonempty {A : Type} (l : list A) : bool :=
  match l with
  | [] => false
  | _ :: _ => true
  end.

(** [d.get(key, False)] for a flag of the validated dict. *)
Definition get_flag (v : option bool) : bool :=
  match v with
  | Some b => b
  | None => false
  end.

(** Line 52: [context.get('schema', ckanext.shift.schema.shift_submit_schema())] *)
Definition submit_schema (P : Platform) (context : call_context) : schema :=
  match ctx_schema context with
  | Some s => s
  | None => shift_submit_schema P
  end.

(** Lines 52-71: validation, authorization, the resource, the site URL and
    the user.  [None] is the [return False] of line 66. *)
Definition submit_resolve (P : Platform) (data_dict : submit_dict)
  : action (option resolved) :=
  context <- get_context ;;
  let schema := submit_schema P context in
  let (data_dict, errors) := schema data_dict in
  if nonempty errors then raise (ValidationError errors) else
  res_id <- getitem "resource_id" (dd_resource_id data_dict) ;;
  (if check_access P "shift_submit" context res_id then ret tt
   else raise NotAuthorized) ;;
  r <- attempt (host (resource_show P context res_id)) ;;
  match r with
  | Raises NotFound => ret None
  | Raises e => raise e
  | Returns resource_dict =>
      site_url <- getitem "ckan.site_url" (config_site_url P) ;;
      user_name <- getitem "user" (ctx_user context) ;;
      user <- host (user_show P context user_name) ;;
      ret (Some (mk_resolved data_dict res_id resource_dict site_url user))
  end.

(** Lines 73-79: the plugins are asked in registration order; the answer is
    [false] at the first plugin that refuses ([return False]). *)
Fixpoint consult_plugins (ps : list plugin) (res_id : string) : action bool :=
  match ps with
  | [] => ret true
  | plugin :: ps' =>
      emit (EvCanUpload (plugin_name plugin) res_id) ;;
      let upload := can_upload plugin res_id in
      if negb upload then ret false
      else consult_plugins ps' res_id
  end.

(** Lines 97-98: the staleness window, 3600 seconds unless configured. *)
Definition assume_task_stale_after (P : Platform) : exn + Z :=
  timedelta_seconds (match config_assume_task_stale_after P with
                     | Some s => s
                     | None => 3600
                     end).

(** Lines 81-116: the new task dict and the look at an existing task.
    [None] is the [return False] of line 112; otherwise the dict to write,
    carrying the id of the existing task when there is one. *)
Definition submit_task (P : Platform) (res_id : string) : action (option task) :=
  now <- utcnow P ;;
  let task := mk_task None res_id "resource" "shift" "shift" "submitting"
                      [] [] (PyStr (datetime_str P now)) in
  r <- attempt (task_status_show res_id "shift" "shift") ;;
  match r with
  | Raises NotFound => ret (Some task)
  | Raises e => raise e
  | Returns existing_task =>
      assume_task_stale_after <- host (assume_task_stale_after P) ;;
      proceed <-
        (if (row_state existing_task =? "pending")%string then
           updated <- py_strptime P (row_last_updated existing_task) ;;
           now <- utcnow P ;;
           let time_since_last_updated := now - updated in
           if time_since_last_updated >? assume_task_stale_after
           then ret true
           else ret false
         else ret true) ;;
      if negb proceed then ret None
      else ret (Some (mk_task (Some (row_id existing_task))
                              (task_entity_id task) (task_entity_type task)
                              (task_task_type task) (task_key task)
                              (task_state task) (task_value task)
                              (task_error task) (task_last_updated task)))
  end.

(** Lines 118-148: the task is written as "submitting", the job is
    enqueued, the task is written again as "pending".  When [enqueue_job]
    raises, the handler leaves [job] unbound (the debugger call is taken to
    return) and line 140 raises. *)
Definition submit_enqueue (P : Platform) (rs : resolved) (task : task)
  : action bool :=
  set_ignore_auth ;;
  task_status_update P task ;;
  api_key <- getitem "apikey" (user_apikey (rs_user rs)) ;;
  let data :=
    mk_job_request api_key "push_to_datastore"
      (rs_site_url rs ++ "/api/3/action/shift_hook")
      (mk_job_metadata (get_flag (dd_ignore_hash (rs_data_dict rs)))
                       (rs_site_url rs)
                       (rs_res_id rs)
                       (get_flag (dd_set_url_type (rs_data_dict rs)))
                       (task_last_updated task)
                       (res_url (rs_resource_dict rs))) in
  j <- attempt (py_enqueue_job P data) ;;
  match j with
  | Raises _ => raise (UnboundLocalError "job")
  | Returns job_id =>
      let value := [("job_id", JString job_id); ("job_key", JNull)] in
      now <- utcnow P ;;
      let task := mk_task (task_id task) (task_entity_id task)
                          (task_entity_type task) (task_task_type task)
                          (task_key task) "pending" value (task_error task)
                          (PyTuple1 (datetime_str P now)) in
      task_status_update P task ;;
      ret true
  end.

Definition shift_submit (P : Platform) (data_dict : submit_dict) : action bool :=
  r <- submit_resolve P data_dict ;;
  match r with
  | None => ret false
  | Some rs =>
      upload <- consult_plugins (plugins P) (rs_res_id rs) ;;
      if negb upload then ret false else
      t <- submit_task P (rs_res_id rs) ;;
      match t with
      | None => ret false
      | Some task => submit_enqueue P rs task
      end
  end.

(** ** [shift_hook] *)

(** [_get_or_bust(d, keys)]: a [ValidationError] naming the missing keys. *)
Definition missing {A : Type} (key : string) (v : option A)
  : list (string * string) :=
  match v with
  | Some _ => []
  | None => [(key, "Missing value")]
  end.

Definition get_or_bust {A : Type} (key : string) (v : option A) : action A :=
  match v with
  | Some a => ret a
  | None => raise (ValidationError (missing key v))
  end.

Definition get_or_bust2 {A B : Type} (key1 : string) (v1 : option A)
           (key2 : string) (v2 : option B) : action (A * B) :=
  match v1, v2 with
  | Some a, Some b => ret (a, b)
  | _, _ => raise (ValidationError (missing key1 v1 ++ missing key2 v2))
  end.

(** Lines 190-191: every plugin is notified, in registration order. *)
Fixpoint notify_plugins (ps : list plugin) (resource_dict : resource)
         (dataset_dict : package) : action unit :=
  match ps with
  | [] => ret tt
  | plugin :: ps' =>
      emit (EvAfterUpload (plugin_name plugin) resource_dict dataset_dict) ;;
      notify_plugins ps' resource_dict dataset_dict
  end.

(** Lines 202-203: [resource_dict.get('last_modified') and
    metadata.get('task_created')], both dates are there. *)
Definition dates_present (r : resource) (metadata : hook_metadata) : bool :=
  truthy (res_last_modified r) && truthy (md_task_created metadata).

(** Lines 201-220: has the file, or its URL, changed since the job was
    created?  The [ValueError] of a date that does not parse is caught; any
    other exception of the parser, and the TypeError of comparing a naive
    with an aware datetime, leave the block. *)
Definition check_modified (P : Platform) (resource_dict : resource)
           (metadata : hook_metadata) : action bool :=
  if dates_present resource_dict metadata
  then
    r <- attempt
           (last_modified <- getitem "last_modified"
                                     (res_last_modified resource_dict) ;;
            last_modified_datetime <- py_parse_date P last_modified ;;
            task_created <- getitem "task_created"
                                    (md_task_created metadata) ;;
            task_created_datetime <- py_parse_date P task_created ;;
            later <- host (datetime_gt last_modified_datetime
                                       task_created_datetime) ;;
            if later then ret true else ret false) ;;
    match r with
    | Returns resubmit => ret resubmit
    | Raises ValueError => ret false
    | Raises e => raise e
    end
  else if truthy (res_url resource_dict)
          && truthy (md_original_url metadata)
          && negb (match res_url resource_dict, md_original_url metadata with
                   | Some url, Some original_url => (url =? original_url)%string
                   | _, _ => true
                   end)
  then ret true
  else ret false.

(** Lines 181-220, the branch [status == 'complete']. *)
Definition hook_complete (P : Platform) (res_id : string)
           (metadata : hook_metadata) : action bool :=
  context <- get_context ;;
  resource_dict <- host (resource_show P context res_id) ;;
  dataset_dict <- host (package_show P context (res_package_id resource_dict)) ;;
  notify_plugins (plugins P) resource_dict dataset_dict ;;
  emit (EvCreateViews resource_dict dataset_dict) ;;
  host (create_default_resource_views P context resource_dict dataset_dict) ;;
  check_modified P resource_dict metadata.

(** Lines 176-177: the dict [task_status_show] returned, with
    ['state'] and ['last_updated'] assigned. *)
Definition set_state_and_last_updated (row : task_status) (status : string)
           (last_updated : pyvalue) : task :=
  mk_task (Some (row_id row)) (row_entity_id row) (row_entity_type row)
          (row_task_type row) (row_key row) status (row_value row)
          (row_error row) last_updated.

(** Lines 162-223: everything up to and including the task update.  The
    result is the flag [resubmit] and the resource id. *)
Definition hook_update (P : Platform) (data_dict : hook_dict)
  : action (bool * string) :=
  ms <- get_or_bust2 "metadata" (hd_metadata data_dict)
                     "status" (hd_status data_dict) ;;
  let (metadata, status) := ms : hook_metadata * string in
  res_id <- get_or_bust "resource_id" (md_resource_id metadata) ;;
  context <- get_context ;;
  (if check_access P "shift_submit" context res_id then ret tt
   else raise NotAuthorized) ;;
  task <- task_status_show res_id "shift" "shift" ;;
  now <- utcnow P ;;
  let task := set_state_and_last_updated task status
                                         (PyStr (datetime_str P now)) in
  resubmit <- (if (status =? "complete")%string
               then hook_complete P res_id metadata
               else ret false) ;;
  set_ignore_auth ;;
  task_status_update P task ;;
  ret (resubmit, res_id).

(** Lines 225-229: the resubmission, with the same context and a dict that
    holds the resource id only. *)
Definition shift_hook (P : Platform) (data_dict : hook_dict) : action unit :=
  r <- hook_update P data_dict ;;
  let (resubmit, res_id) := r : bool * string in
  if resubmit
  then shift_submit P (mk_submit_dict (Some res_id) None None) ;; ret tt
  else ret tt.

(** ** Reading a trace *)

(** The events that write: a task update or an enqueued job. *)
Definition is_write (e : event) : bool :=
  match e with
  | EvTaskStatusUpdate _ | EvEnqueue _ => true
  | _ => false
  end.

Definition writes (evs : list event) : list event := filter is_write evs.

(** The task dicts that were handed to [task_status_update], in order. *)
Fixpoint updates (evs : list event) : list task :=
  match evs with
  | [] => []
  | EvTaskStatusUpdate t :: evs' => t :: updates evs'
  | _ :: evs' => updates evs'
  end.

(** The job requests that were enqueued, in order. *)
Fixpoint enqueued (evs : list event) : list job_request :=
  match evs with
  | [] => []
  | EvEnqueue d :: evs' => d :: enqueued evs'
  | _ :: evs' => enqueued evs'
  end.

(** The plugins [consult_plugins] asks: up to and including the first that
    refuses. *)
Fixpoint consulted (ps : list plugin) (res_id : string) : list plugin :=
  match ps with
  | [] => []
  | p :: ps' => p :: (if can_upload p res_id then consulted ps' res_id else [])
  end.

Definition can_upload_events (ps : list plugin) (res_id : string) : list event :=
  map (fun p => EvCanUpload (plugin_name p) res_id) ps.

Definition after_upload_events (ps : list plugin) (r : resource) (d : package)
  : list event :=
  map (fun p => EvAfterUpload (plugin_name p) r d) ps.

(** What [shift_hook] needs to get as far as its task: the two parameters,
    the resource id in the metadata, the right to submit, and a task. *)
Definition hook_accepted (P : Platform) (dd : hook_dict) (w : world)
           (metadata : hook_metadata) (status res_id : string)
           (task : task_status) : Prop :=
  hd_metadata dd = Some metadata /\
  hd_status dd = Some status /\
  md_resource_id metadata = Some res_id /\
  check_access P "shift_submit" (w_context w) res_id = true /\
  fst (task_status_show res_id "shift" "shift" w) = Returns task.

(** The host calls of the branch [status == 'complete'] succeed: the
    resource and its dataset are found and the default views are made. *)
Definition completion_succeeds (P : Platform) (w : world) (res_id : string)
           (r : resource) (d : package) : Prop :=
  resource_show P (w_context w) res_id = inr r /\
  package_show P (w_context w) (res_package_id r) = inr d /\
  create_default_resource_views P (w_context w) r d = inr tt.

(** [shift_submit] went past the duplicate check and wrote over the row of
    [existing]: it did not return False; the table has the rows (the ids)
    it had; every task update of the call carried the id of [existing];
    and the rows with that id hold the last of these updates. *)
Definition overwrites_task (existing : task_status) (w : world)
           (r : outcome bool * world) : Prop :=
  fst r <> Returns false /\
  map row_id (w_tasks (snd r)) = map row_id (w_tasks w) /\
  exists evs us t,
    w_trace (snd r) = (w_trace w ++ evs)%list /\
    updates evs = (us ++ [t])%list /\
    Forall (fun u => task_id u = Some (row_id existing)) (updates evs) /\
    forall r', In r' (w_tasks (snd r)) -> row_id r' = row_id existing ->
               r' = row_of_task (row_id existing) t.

(** The task dict of lines 81-90 and 114: a new "submitting" task created
    at [now], under the id [id] when an existing task was found. *)
Definition submitting_task (P : Platform) (id : option string)
           (res_id : string) (now : Z) : task :=
  mk_task id res_id "resource" "shift" "shift" "submitting" [] []
          (PyStr (datetime_str P now)).



(** Lines 121-133: the [data] dict, for the API key [api_key] and the
    ['last_updated'] of the task dict. *)
Definition job_data (rs : resolved) (api_key : string) (task_created : pyvalue)
  : job_request :=
  mk_job_request api_key "push_to_datastore"
    (rs_site_url rs ++ "/api/3/action/shift_hook")
    (mk_job_metadata (get_flag (dd_ignore_hash (rs_data_dict rs)))
                     (rs_site_url rs)
                     (rs_res_id rs)
                     (get_flag (dd_set_url_type (rs_data_dict rs)))
                     task_created
                     (res_url (rs_resource_dict rs))).

(** Lines 140-145: the task dict after the job [job_id] is enqueued. *)
Definition pending_task (t : task) (job_id : string) (last_updated : pyvalue)
  : task :=
  mk_task (task_id t) (task_entity_id t) (task_entity_type t) (task_task_type t)
          (task_key t) "pending"
          [("job_id", JString job_id); ("job_key", JNull)] (task_error t)
          last_updated.

(** The context with ['ignore_auth'] set. *)
Definition ignoring_auth (c : call_context) : call_context :=
  mk_context (ctx_user c) (ctx_schema c) true.

(** The dates of lines 202-213 settle the question without an exception:
    when both are there, either one of them does not parse, with the
    ValueError that line 212 catches and before anything else is raised, or
    both parse to datetimes of the same kind, which can be compared. *)
Definition dates_settle (P : Platform) (r : resource) (metadata : hook_metadata)
  : Prop :=
  forall lm tc,
    res_last_modified r = Some lm -> lm <> "" ->
    md_task_created metadata = Some tc -> tc <> "" ->
    parse_date P lm = inl ValueError \/
    exists d1,
      parse_date P lm = inr d1 /\
      (parse_date P tc = inl ValueError \/
       exists d2, parse_date P tc = inr d2 /\ dt_aware d1 = dt_aware d2).

(** ** A sample platform

    A small installation on which the statements below are exercised.  The
    library functions are given by their values at the strings and instants
    the examples use. *)

Definition sample_schema : schema :=
  fun d =>
    match dd_resource_id d with
    | Some _ => (d, [])
    | None => (d, [("resource_id", "Missing value")])
    end.

Definition sample_resource : resource :=
  mk_resource "pkg-1" (Some "http://a/x.csv") None.

Definition sample_datetime_str (t : Z) : string :=
  if t =? 1672533000250000 then "2023-01-01 00:30:00.250000"
  else if t =? 1672533000250001 then "2023-01-01 00:30:00.250001"
  else if t =? 1672533000250002 then "2023-01-01 00:30:00.250002"
  else if t =? 1672533000250003 then "2023-01-01 00:30:00.250003"
  else "".

Definition sample_strptime (s : string) : option Z :=
  if (s =? "2023-01-01T00:00:00.500000")%string then Some 1672531200500000
  else if (s =? "2022-12-31T12:00:00.500000")%string then Some 1672488000500000
  else None.

Definition sample_parse_date (s : string) : exn + datetime :=
  if (s =? "2023-01-01T00:00:00")%string
  then inr (mk_datetime 1672531200000000 false)
  else if (s =? "2023-01-02T00:00:00")%string
  then inr (mk_datetime 1672617600000000 false)
  else if (s =? "2023-01-01T00:00:00+00:00")%string
  then inr (mk_datetime 1672531200000000 true)
  else if (s =? "99999999999999999999")%string
  then inl OverflowError
  else inl ValueError.

Definition sample_platform (ps : list plugin) (r : exn + resource) : Platform :=
  {| shift_submit_schema := sample_schema;
     check_access := fun _ context _ =>
       ctx_ignore_auth context
       || match ctx_user context with
          | Some u => (u =? "editor")%string
          | None => false
          end;
     resource_show := fun _ id =>
       if (id =? "res-1")%string then r else inl NotFound;
     package_show := fun _ id =>
       if (id =? "pkg-1")%string then inr (mk_package "pkg-1") else inl NotFound;
     user_show := fun _ id =>
       if (id =? "editor")%string then inr (mk_user (Some "key-1"))
       else inl NotFound;
     create_default_resource_views := fun _ _ _ => inr tt;
     config_site_url := Some "http://ckan.example";
     config_assume_task_stale_after := None;
     plugins := ps;
     clock := fun n => 1672533000250000 + Z.of_nat n;
     enqueue_job := fun queue _ =>
       inr (nth (length queue) ["job-1"; "job-2"] "job-3");
     new_task_id := fun rows =>
       nth (length rows) ["task-1"; "task-2"] "task-3";
     datetime_str := sample_datetime_str;
     strptime := sample_strptime;
     parse_date := sample_parse_date |}.

Definition sample_context : call_context :=
  mk_context (Some "editor") None false.

Definition sample_world (rows : list task_status) : world :=
  mk_world sample_context rows [] 0 [].

Definition sample_row (state : string) (last_updated : string) : task_status :=
  mk_task_status "task-1" "res-1" "resource" "shift" "shift" state [] []
                 (PyStr last_updated).

Definition accepting (name : string) : plugin := mk_plugin name (fun _ => true).

Definition refusing (name : string) : plugin := mk_plugin name (fun _ => false).

Definition sample_submit : submit_dict :=
  mk_submit_dict (Some "res-1") (Some true) (Some true).

Definition sample_resolved : resolved :=
  mk_resolved sample_submit "res-1" sample_resource "http://ckan.example"
              (mk_user (Some "key-1")).

(** A task last updated 1799.75 s before the second reading of the clock. *)
Definition fresh_row : task_status :=
  sample_row "pending" "2023-01-01T00:00:00.500000".

(** A task last updated 12 h 30 min before the second reading of the clock. *)
Definition stale_row : task_status :=
  sample_row "pending" "2022-12-31T12:00:00.500000".

(** A task that failed; its date is not one [strptime] reads. *)
Definition failed_row : task_status := sample_row "error" "2022-12-31 12:00:00".

(** The resource, modified after the job was created. *)
Definition modified_resource : resource :=
  mk_resource "pkg-1" (Some "http://a/x.csv") (Some "2023-01-02T00:00:00").

Definition sample_metadata : hook_metadata :=
  mk_hook_metadata (Some "res-1") (Some "2023-01-01T00:00:00")
                   (Some "http://a/x.csv").

Definition sample_hook (status : string) : hook_dict :=
  mk_hook_dict (Some sample_metadata) (Some status).



(** The world in which the hook for "complete" has updated the task of a
    modified resource. *)
Definition sample_updated_world : world :=
  Eval cbv in
    snd (hook_update (sample_platform [accepting "A"] (inr modified_resource))
                     (sample_hook "complete") (sample_world [fresh_row])).

(** The sample platform with another queue and another view maker. *)
Definition sample_platform_with
           (enqueue : list job_request -> job_request -> exn + string)
           (views : call_context -> resource -> package -> exn + unit)
           (r : exn + resource) : Platform :=
  {| shift_submit_schema := sample_schema;
     check_access := check_access (sample_platform [] r);
     resource_show := resource_show (sample_platform [] r);
     package_show := package_show (sample_platform [] r);
     user_show := user_show (sample_platform [] r);
     create_default_resource_views := views;
     config_site_url := Some "http://ckan.example";
     config_assume_task_stale_after := None;
     plugins := [accepting "A"; accepting "B"];
     clock := fun n => 1672533000250000 + Z.of_nat n;
     enqueue_job := enqueue;
     new_task_id := new_task_id (sample_platform [] r);
     datetime_str := sample_datetime_str;
     strptime := sample_strptime;
     parse_date := sample_parse_date |}.

(** The sample platform with another site URL and another user record. *)
Definition sample_site (site_url : option string) (u : user) : Platform :=
  {| shift_submit_schema := sample_schema;
     check_access := check_access (sample_platform [] (inr sample_resource));
     resource_show := resource_show (sample_platform [] (inr sample_resource));
     package_show := package_show (sample_platform [] (inr sample_resource));
     user_show := fun _ _ => inr u;
     create_default_resource_views := fun _ _ _ => inr tt;
     config_site_url := site_url;
     config_assume_task_stale_after := None;
     plugins := [accepting "A"];
     clock := fun n => 1672533000250000 + Z.of_nat n;
     enqueue_job := enqueue_job (sample_platform [] (inr sample_resource));
     new_task_id := new_task_id (sample_platform [] (inr sample_resource));
     datetime_str := sample_datetime_str;
     strptime := sample_strptime;
     parse_date := sample_parse_date |}.

(** A queue that is down. *)
Definition queue_down (queue : list job_request) (data : job_request)
  : exn + string :=
  inl (HostError "queue down").

(** A world whose caller is not the editor. *)
Definition visitor_world (rows : list task_status) : world :=
  mk_world (mk_context (Some "visitor") None false) rows [] 0 [].

(** A pending task whose date has no microseconds: [strptime] with
    ['%Y-%m-%dT%H:%M:%S.%f'] does not read it. *)
Definition unreadable_row : task_status :=
  sample_row "pending" "2023-01-01T00:00:00".

(** The world a plugin veto leaves. *)
Definition sample_vetoed_world : world :=
  Eval cbv in
    snd (shift_submit (sample_platform [refusing "B"] (inr sample_resource))
                      sample_submit (sample_world [fresh_row])).

(** The world the first submission of the resource leaves. *)
Definition sample_submitted_world : world :=
  Eval cbv in
    snd (shift_submit (sample_platform [accepting "A"] (inr sample_resource))
                      sample_submit (sample_world [])).

(** What lines 52-71 leave in scope in the resubmission. *)
Definition resubmit_resolved : resolved :=
  mk_resolved (mk_submit_dict (Some "res-1") None None) "res-1"
              modified_resource "http://ckan.example" (mk_user (Some "key-1")).

(** ** Properties *)

Section Properties.

Variable P : Platform.

Lemma record_events_nil (w : world) : record_events [] w = w.
Proof.
  destruct w as [c t q n tr]. unfold record_events. simpl.
  now rewrite app_nil_r.
Qed.

Lemma record_events_app (evs evs' : list event) (w : world) :
  record_events evs' (record_events evs w) = record_events (evs ++ evs')%list w.
Proof.
  unfold record_events. simpl. now rewrite app_assoc.
Qed.

Lemma updates_app (evs evs' : list event) :
  updates (evs ++ evs')%list = (updates evs ++ updates evs')%list.
Proof.
  induction evs as [|e evs IH]; simpl; [reflexivity|].
  destruct e; simpl; rewrite IH; reflexivity.
Qed.

Lemma enqueued_app (evs evs' : list event) :
  enqueued (evs ++ evs')%list = (enqueued evs ++ enqueued evs')%list.
Proof.
  induction evs as [|e evs IH]; simpl; [reflexivity|].
  destruct e; simpl; rewrite IH; reflexivity.
Qed.

Lemma writes_can_upload (ps : list plugin) (res_id : string) :
  writes (can_upload_events ps res_id) = [].
Proof.
  induction ps as [|p ps IH]; simpl; [reflexivity | exact IH].
Qed.

(** Lines 52-71 read the world and leave it as it is. *)
Lemma submit_resolve_world (dd : submit_dict) (w w' : world)
      (o : outcome (option resolved)) :
  submit_resolve P dd w = (o, w') -> w' = w.
Proof.
  unfold submit_resolve, bind, get_context, attempt, host, getitem, ret, raise.
  destruct (submit_schema P (w_context w) dd) as [dd' errors].
  destruct (nonempty errors); [intros H; now inversion H|].
  destruct (dd_resource_id dd') as [res_id|]; [|intros H; now inversion H].
  destruct (check_access P "shift_submit" (w_context w) res_id);
    [|intros H; now inversion H].
  destruct (resource_show P (w_context w) res_id) as [e|r].
  - destruct e; intros H; now inversion H.
  - destruct (config_site_url P); [|intros H; now inversion H].
    destruct (ctx_user (w_context w)) as [name|]; [|intros H; now inversion H].
    destruct (user_show P (w_context w) name); intros H; now inversion H.
Qed.

(** The plugin loop: its answer and its trace. *)
Lemma consult_plugins_run (ps : list plugin) (res_id : string) (w : world) :
  consult_plugins ps res_id w =
  (Returns (forallb (fun p => can_upload p res_id) ps),
   record_events (can_upload_events (consulted ps res_id) res_id) w).
Proof.
  revert w. induction ps as [|p ps IH]; intros w; simpl.
  - unfold ret. now rewrite record_events_nil.
  - unfold bind, emit. destruct (can_upload p res_id); simpl.
    + rewrite IH, record_events_app. reflexivity.
    + reflexivity.
Qed.

Lemma first_refusal (ps : list plugin) (res_id : string) :
  existsb (fun p => negb (can_upload p res_id)) ps = true ->
  exists before p after,
    ps = (before ++ p :: after)%list /\
    forallb (fun q => can_upload q res_id) before = true /\
    can_upload p res_id = false /\
    consulted ps res_id = (before ++ [p])%list /\
    forallb (fun q => can_upload q res_id) ps = false.
Proof.
  induction ps as [|q ps IH]; simpl; [discriminate|].
  destruct (can_upload q res_id) eqn:Hq; simpl.
  - intros H. destruct (IH H) as (before & p & after & E & Hb & Hp & Hc & Hf).
    exists (q :: before), p, after. simpl. rewrite Hq, Hb, Hc, <- E.
    repeat split; auto.
  - intros _. exists [], q, ps. simpl. repeat split; auto.
Qed.

Lemma resolve_run (dd : submit_dict) (w : world) (r : option resolved) :
  fst (submit_resolve P dd w) = Returns r ->
  submit_resolve P dd w = (Returns r, w).
Proof.
  destruct (submit_resolve P dd w) as [o w'] eqn:E. simpl. intros ->.
  now rewrite (submit_resolve_world _ _ _ _ E).
Qed.

(** What [shift_submit] does once the resource is resolved. *)
Lemma shift_submit_resolved (dd : submit_dict) (w : world) (rs : resolved) :
  fst (submit_resolve P dd w) = Returns (Some rs) ->
  shift_submit P dd w =
  (if forallb (fun p => can_upload p (rs_res_id rs)) (plugins P)
   then (t <- submit_task P (rs_res_id rs) ;;
         match t with
         | None => ret false
         | Some task => submit_enqueue P rs task
         end)
   else ret false)
    (record_events
       (can_upload_events (consulted (plugins P) (rs_res_id rs)) (rs_res_id rs))
       w).
Proof.
  intros H. unfold shift_submit, bind at 1.
  rewrite (resolve_run _ _ _ H).
  unfold bind at 1. rewrite consult_plugins_run.
  destruct (forallb _ (plugins P)); reflexivity.
Qed.

(** [task_status_show] reads the task table only. *)
Lemma task_status_show_fst (entity_id task_type key : string) (w' w : world) :
  w_tasks w' = w_tasks w ->
  fst (task_status_show entity_id task_type key w') =
  fst (task_status_show entity_id task_type key w).
Proof.
  unfold task_status_show. intros ->.
  now destruct (find (same_key entity_id task_type key) (w_tasks w)).
Qed.

(** Lines 99-112 on a pending task that is not yet stale: [return False],
    after two readings of the clock. *)
Lemma submit_task_pending_fresh (res_id last_updated : string) (w : world)
      (existing : task_status) (updated window : Z) :
  fst (task_status_show res_id "shift" "shift" w) = Returns existing ->
  row_state existing = "pending" ->
  row_last_updated existing = PyStr last_updated ->
  strptime P last_updated = Some updated ->
  assume_task_stale_after P = inr window ->
  clock P (S (w_clock_reads w)) - updated <= window ->
  submit_task P res_id w = (Returns None, tick (tick w)).
Proof.
  unfold task_status_show. intros Hshow Hstate Hlast Hparse Hwin Hle.
  unfold submit_task, bind, attempt, utcnow, task_status_show, host. simpl.
  destruct (find (same_key res_id "shift" "shift") (w_tasks w)) as [r|];
    simpl in Hshow; [|discriminate].
  injection Hshow as ->. rewrite Hwin. unfold ret at 1.
  rewrite Hstate. simpl. rewrite Hlast. unfold py_strptime. rewrite Hparse.
  unfold ret at 1. simpl.
  destruct (Z.gtb_spec (clock P (S (w_clock_reads w)) - updated) window);
    [lia | reflexivity].
Qed.

Lemma updates_can_upload (ps : list plugin) (res_id : string) :
  updates (can_upload_events ps res_id) = [].
Proof.
  induction ps as [|p ps IH]; simpl; [reflexivity | exact IH].
Qed.

Lemma overwrite_ids (sel : task_status -> bool) (t : task)
      (rows : list task_status) :
  map row_id (overwrite sel t rows) = map row_id rows.
Proof.
  induction rows as [|r rows IH]; simpl; [reflexivity|].
  rewrite IH. now destruct (sel r).
Qed.

Lemma overwrite_by_id (i : string) (t : task) (rows : list task_status)
      (r : task_status) :
  In r (overwrite (fun r => (row_id r =? i)%string) t rows) ->
  row_id r = i -> r = row_of_task i t.
Proof.
  induction rows as [|r0 rows IH]; simpl; [tauto|].
  intros [E|Hin] Hid; [|now apply IH].
  destruct (String.eqb_spec (row_id r0) i) as [E0|N0].
  - now rewrite <- E, E0.
  - subst r. contradiction.
Qed.

Lemma has_id_ids (i : string) (rows rows' : list task_status) :
  map row_id rows' = map row_id rows ->
  existsb (fun r => (row_id r =? i)%string) rows' =
  existsb (fun r => (row_id r =? i)%string) rows.
Proof.
  revert rows'. induction rows as [|r rows IH]; intros [|r' rows']; simpl;
    try discriminate; [reflexivity|].
  intros H. injection H as -> H. now rewrite (IH _ H).
Qed.

Lemma shown_has_id (res_id : string) (w : world) (existing : task_status) :
  fst (task_status_show res_id "shift" "shift" w) = Returns existing ->
  existsb (fun r => (row_id r =? row_id existing)%string) (w_tasks w) = true.
Proof.
  unfold task_status_show.
  destruct (find _ (w_tasks w)) as [r|] eqn:E; simpl; [|discriminate].
  intros H. injection H as ->. apply find_some in E. apply existsb_exists.
  exists existing. split; [tauto | apply String.eqb_refl].
Qed.

(** [task_status_update] of a dict whose id is in the table. *)
Lemma task_status_update_by_id (t : task) (i : string) (w : world) :
  task_id t = Some i ->
  existsb (fun r => (row_id r =? i)%string) (w_tasks w) = true ->
  task_status_update P t w =
  (Returns tt,
   with_tasks (overwrite (fun r => (row_id r =? i)%string) t (w_tasks w))
              (record_events [EvTaskStatusUpdate t] w)).
Proof.
  intros Hid Hin. unfold task_status_update, bind, emit. simpl.
  now rewrite Hid, Hin.
Qed.

(** Lines 118-148 on a task dict that carries the id of an existing row. *)
Lemma submit_enqueue_by_id (rs : resolved) (t : task) (existing : task_status)
      (w : world) :
  task_id t = Some (row_id existing) ->
  existsb (fun r => (row_id r =? row_id existing)%string) (w_tasks w) = true ->
  overwrites_task existing w (submit_enqueue P rs t w).
Proof.
  intros Hid Hin. unfold submit_enqueue, bind at 1, set_ignore_auth.
  unfold bind at 1.
  rewrite (task_status_update_by_id t (row_id existing)); [|exact Hid|exact Hin].
  unfold bind at 1, getitem.
  destruct (user_apikey (rs_user rs)) as [api_key|].
  2:{ unfold overwrites_task, raise. simpl. split; [discriminate|].
      split; [apply overwrite_ids|].
      exists [EvTaskStatusUpdate t], [], t. simpl.
      repeat split; auto. apply overwrite_by_id. }
  unfold ret at 1, bind at 1, attempt, py_enqueue_job. simpl w_queue.
  match goal with |- context [enqueue_job P ?q ?d] =>
    destruct (enqueue_job P q d) as [e|job_id]; set (data := d) end.
  - unfold overwrites_task, raise. simpl. split; [discriminate|].
    split; [apply overwrite_ids|].
    exists [EvTaskStatusUpdate t], [], t. simpl.
    repeat split; auto. apply overwrite_by_id.
  - unfold bind at 1, utcnow. simpl clock. unfold bind at 1.
    match goal with |- context [task_status_update P ?u ?v] =>
      set (t2 := u); set (w2 := v) end.
    rewrite (task_status_update_by_id t2 (row_id existing) w2);
      [|exact Hid|].
    2:{ unfold w2. simpl. rewrite <- Hin. apply has_id_ids, overwrite_ids. }
    unfold overwrites_task, ret, w2. simpl. split; [discriminate|].
    split; [now rewrite !overwrite_ids|].
    exists [EvTaskStatusUpdate t; EvEnqueue data; EvTaskStatusUpdate t2], [t], t2.
    simpl. rewrite <- !app_assoc. simpl.
    repeat split; auto. apply overwrite_by_id.
Qed.

(** Lines 99-114 on a pending task that is stale: the dict to write carries
    the id of the task. *)
Lemma submit_task_pending_stale (res_id last_updated : string) (w : world)
      (existing : task_status) (updated window : Z) :
  fst (task_status_show res_id "shift" "shift" w) = Returns existing ->
  row_state existing = "pending" ->
  row_last_updated existing = PyStr last_updated ->
  strptime P last_updated = Some updated ->
  assume_task_stale_after P = inr window ->
  clock P (S (w_clock_reads w)) - updated > window ->
  submit_task P res_id w =
  (Returns (Some (submitting_task P (Some (row_id existing)) res_id
                                  (clock P (w_clock_reads w)))),
   tick (tick w)).
Proof.
  unfold task_status_show. intros Hshow Hstate Hlast Hparse Hwin Hgt.
  unfold submit_task, bind, attempt, utcnow, task_status_show, host. simpl.
  destruct (find (same_key res_id "shift" "shift") (w_tasks w)) as [r|];
    simpl in Hshow; [|discriminate].
  injection Hshow as ->. rewrite Hwin. unfold ret at 1.
  rewrite Hstate. simpl. rewrite Hlast. unfold py_strptime. rewrite Hparse.
  unfold ret at 1. simpl.
  destruct (Z.gtb_spec (clock P (S (w_clock_reads w)) - updated) window);
    [reflexivity | lia].
Qed.

(** Lines 99-114 on a task in another state: no date is read, and the dict
    to write carries the id of the task. *)
Lemma submit_task_not_pending (res_id : string) (w : world)
      (existing : task_status) (window : Z) :
  fst (task_status_show res_id "shift" "shift" w) = Returns existing ->
  row_state existing <> "pending" ->
  assume_task_stale_after P = inr window ->
  submit_task P res_id w =
  (Returns (Some (submitting_task P (Some (row_id existing)) res_id
                                  (clock P (w_clock_reads w)))),
   tick w).
Proof.
  unfold task_status_show. intros Hshow Hstate Hwin.
  unfold submit_task, bind, attempt, utcnow, task_status_show, host. simpl.
  destruct (find (same_key res_id "shift" "shift") (w_tasks w)) as [r|];
    simpl in Hshow; [|discriminate].
  injection Hshow as ->. rewrite Hwin. unfold ret at 1.
  destruct (String.eqb_spec (row_state existing) "pending") as [E|_];
    [contradiction | reflexivity].
Qed.

(** A call that gets past the plugins and whose task dict carries the id of
    an existing row writes over that row. *)
Lemma submit_proceeds (dd : submit_dict) (w w3 : world) (rs : resolved)
      (existing : task_status) (t : task) :
  fst (submit_resolve P dd w) = Returns (Some rs) ->
  forallb (fun p => can_upload p (rs_res_id rs)) (plugins P) = true ->
  fst (task_status_show (rs_res_id rs) "shift" "shift" w) = Returns existing ->
  submit_task P (rs_res_id rs)
    (record_events
       (can_upload_events (consulted (plugins P) (rs_res_id rs)) (rs_res_id rs))
       w) = (Returns (Some t), w3) ->
  task_id t = Some (row_id existing) ->
  w_tasks w3 = w_tasks w ->
  w_trace w3 =
    (w_trace w ++
     can_upload_events (consulted (plugins P) (rs_res_id rs)) (rs_res_id rs))%list ->
  overwrites_task existing w (shift_submit P dd w).
Proof.
  intros Hres Hall Hshow Htask Hid Hrows Htrace.
  rewrite (shift_submit_resolved _ _ _ Hres), Hall.
  unfold bind. rewrite Htask.
  destruct (submit_enqueue_by_id rs t existing w3 Hid) as (Ho & Hids & H).
  { rewrite Hrows. exact (shown_has_id _ _ _ Hshow). }
  destruct H as (evs & us & t' & Hevs & Hups & Hall' & Hrow).
  split; [exact Ho|]. split; [now rewrite Hids, Hrows|].
  exists (can_upload_events (consulted (plugins P) (rs_res_id rs)) (rs_res_id rs)
          ++ evs)%list, us, t'.
  rewrite Hevs, Htrace, app_assoc, updates_app, updates_can_upload. simpl.
  repeat split; auto.
Qed.

(** C6: when [resource_show] raises NotFound, [shift_submit] returns False
    instead of raising, and leaves the world as it found it: no task record
    is written, no job is enqueued, no plugin is asked. *)
Theorem submit_resource_not_found (dd dd' : submit_dict) (res_id : string)
        (w : world) :
  submit_schema P (w_context w) dd = (dd', []) ->
  dd_resource_id dd' = Some res_id ->
  check_access P "shift_submit" (w_context w) res_id = true ->
  resource_show P (w_context w) res_id = inl NotFound ->
  shift_submit P dd w = (Returns false, w).
Proof.
  intros Hvalid Hid Hauth Hshow.
  unfold shift_submit, submit_resolve, bind, get_context, attempt, host.
  rewrite Hvalid. simpl. rewrite Hid. simpl. rewrite Hauth. simpl.
  rewrite Hshow. reflexivity.
Qed.

(** C3: whatever the order of registration, if some registered plugin
    refuses the resource, [shift_submit] returns False, the task table and
    the queue are untouched, and the plugins asked are exactly those up to
    and including the first that refuses: the ones registered after it are
    not consulted, and their answers do not matter. *)
Theorem plugin_veto_blocks_submit (dd : submit_dict) (w : world) (rs : resolved) :
  fst (submit_resolve P dd w) = Returns (Some rs) ->
  existsb (fun p => negb (can_upload p (rs_res_id rs))) (plugins P) = true ->
  exists before p after w',
    plugins P = (before ++ p :: after)%list /\
    forallb (fun q => can_upload q (rs_res_id rs)) before = true /\
    can_upload p (rs_res_id rs) = false /\
    shift_submit P dd w = (Returns false, w') /\
    w_tasks w' = w_tasks w /\
    w_queue w' = w_queue w /\
    w_trace w' =
      (w_trace w ++ can_upload_events (before ++ [p]) (rs_res_id rs))%list.
Proof.
  intros Hres Hveto.
  destruct (first_refusal _ _ Hveto) as (before & p & after & E & Hb & Hp & Hc & Hf).
  exists before, p, after.
  eexists. rewrite (shift_submit_resolved _ _ _ Hres), Hf, Hc.
  repeat split; auto.
Qed.

(** C1: a resource whose task is "pending" and was last updated no longer
    ago than the staleness window (the configured number of seconds, 3600 by
    default) is not submitted again: [shift_submit] returns False, the task
    table and the queue are untouched, and no task update and no job appear
    in the trace. *)
Theorem pending_task_blocks_submit (dd : submit_dict) (w : world) (rs : resolved)
        (existing : task_status) (last_updated : string) (updated window : Z) :
  fst (submit_resolve P dd w) = Returns (Some rs) ->
  fst (task_status_show (rs_res_id rs) "shift" "shift" w) = Returns existing ->
  row_state existing = "pending" ->
  row_last_updated existing = PyStr last_updated ->
  strptime P last_updated = Some updated ->
  assume_task_stale_after P = inr window ->
  clock P (S (w_clock_reads w)) - updated <= window ->
  exists w',
    shift_submit P dd w = (Returns false, w') /\
    w_tasks w' = w_tasks w /\
    w_queue w' = w_queue w /\
    writes (w_trace w') = writes (w_trace w).
Proof.
  intros Hres Hshow Hstate Hlast Hparse Hwin Hle.
  rewrite (shift_submit_resolved _ _ _ Hres).
  set (evs := can_upload_events _ _).
  assert (Hevs : writes (w_trace w ++ evs) = writes (w_trace w)).
  { unfold writes, evs. rewrite filter_app.
    fold (writes (can_upload_events (consulted (plugins P) (rs_res_id rs))
                                    (rs_res_id rs))).
    rewrite writes_can_upload. apply app_nil_r. }
  destruct (forallb _ (plugins P)).
  - unfold bind.
    rewrite (submit_task_pending_fresh (rs_res_id rs) last_updated
               (record_events evs w) existing updated window);
      [|now rewrite (task_status_show_fst _ _ _ _ w)|assumption..].
    eexists. split; [reflexivity|]. simpl. auto.
  - eexists. split; [reflexivity|]. simpl. auto.
Qed.

(** C5: a resource whose task is "pending" but was last updated longer ago
    than the staleness window is submitted again, over the same task:
    [shift_submit] does not return False, every task update it makes carries
    the id of the existing task, and the table keeps its rows, the one of
    that id now holding the new task (an update by id, not a second task). *)
Theorem stale_pending_task_is_overwritten (dd : submit_dict) (w : world)
        (rs : resolved) (existing : task_status) (last_updated : string)
        (updated window : Z) :
  fst (submit_resolve P dd w) = Returns (Some rs) ->
  forallb (fun p => can_upload p (rs_res_id rs)) (plugins P) = true ->
  fst (task_status_show (rs_res_id rs) "shift" "shift" w) = Returns existing ->
  row_state existing = "pending" ->
  row_last_updated existing = PyStr last_updated ->
  strptime P last_updated = Some updated ->
  assume_task_stale_after P = inr window ->
  clock P (S (w_clock_reads w)) - updated > window ->
  overwrites_task existing w (shift_submit P dd w).
Proof.
  intros Hres Hall Hshow Hstate Hlast Hparse Hwin Hgt.
  eapply submit_proceeds; try eassumption.
  - apply (submit_task_pending_stale _ last_updated _ existing updated window);
      auto.
    now rewrite (task_status_show_fst _ _ _ _ w).
  - reflexivity.
  - reflexivity.
  - reflexivity.
Qed.

(** C9: the duplicate check looks at "pending" tasks only.  When the
    existing task is in any other state, [shift_submit] does not return
    False and writes over it at once, under its id, whatever its age: its
    ['last_updated'] is not even read. *)
Theorem other_state_task_is_overwritten (dd : submit_dict) (w : world)
        (rs : resolved) (existing : task_status) (window : Z) :
  fst (submit_resolve P dd w) = Returns (Some rs) ->
  forallb (fun p => can_upload p (rs_res_id rs)) (plugins P) = true ->
  fst (task_status_show (rs_res_id rs) "shift" "shift" w) = Returns existing ->
  row_state existing <> "pending" ->
  assume_task_stale_after P = inr window ->
  overwrites_task existing w (shift_submit P dd w).
Proof.
  intros Hres Hall Hshow Hstate Hwin.
  eapply submit_proceeds; try eassumption.
  - apply (submit_task_not_pending _ _ existing window); auto.
    now rewrite (task_status_show_fst _ _ _ _ w).
  - reflexivity.
  - reflexivity.
  - reflexivity.
Qed.

Lemma truthy_some (v : option string) :
  truthy v = true <-> exists s, v = Some s /\ s <> "".
Proof.
  unfold truthy. destruct v as [s|].
  - destruct (String.eqb_spec s ""); simpl; split.
    + discriminate.
    + intros (s' & E & N). injection E as <-. contradiction.
    + intros _. now exists s.
    + reflexivity.
  - split; [discriminate | intros (s & E & _); discriminate].
Qed.

Lemma dates_present_true (r : resource) (md : hook_metadata) (lm tc : string) :
  res_last_modified r = Some lm -> lm <> "" ->
  md_task_created md = Some tc -> tc <> "" ->
  dates_present r md = true.
Proof.
  intros E1 N1 E2 N2. unfold dates_present. apply andb_true_iff.
  split; apply truthy_some; eauto.
Qed.

Lemma dates_present_false (r : resource) (md : hook_metadata) :
  res_last_modified r = None \/ res_last_modified r = Some "" \/
  md_task_created md = None \/ md_task_created md = Some "" ->
  dates_present r md = false.
Proof.
  unfold dates_present, truthy.
  intros [E | [E | [E | E]]]; rewrite E; simpl;
    try reflexivity; apply andb_false_r.
Qed.

(** Lines 201-220 leave the world alone, whatever their outcome. *)
Lemma check_modified_world (r : resource) (md : hook_metadata) (w : world) :
  snd (check_modified P r md w) = w.
Proof.
  unfold check_modified. destruct (dates_present r md).
  - unfold bind, attempt, getitem, py_parse_date, host, ret, raise.
    destruct (res_last_modified r) as [lm|]; simpl; [|reflexivity].
    destruct (parse_date P lm) as [e|d1]; simpl; [now destruct e|].
    destruct (md_task_created md) as [tc|]; simpl; [|reflexivity].
    destruct (parse_date P tc) as [e|d2]; simpl; [now destruct e|].
    destruct (datetime_gt d1 d2) as [e|[]]; simpl; try reflexivity.
    now destruct e.
  - now destruct (_ && _).
Qed.

(** Both dates are there, parse, and can be compared: the later one
    decides. *)
Lemma check_modified_compared (r : resource) (md : hook_metadata) (w : world)
      (lm tc : string) (d1 d2 : datetime) :
  res_last_modified r = Some lm -> lm <> "" ->
  md_task_created md = Some tc -> tc <> "" ->
  parse_date P lm = inr d1 -> parse_date P tc = inr d2 ->
  dt_aware d1 = dt_aware d2 ->
  check_modified P r md w = (Returns (dt_instant d1 >? dt_instant d2), w).
Proof.
  intros E1 N1 E2 N2 P1 P2 Hk. unfold check_modified.
  rewrite (dates_present_true _ _ _ _ E1 N1 E2 N2), E1, E2.
  unfold bind, attempt, getitem, py_parse_date, host, ret, raise. simpl.
  rewrite P1. simpl. rewrite P2. simpl. unfold datetime_gt.
  rewrite Hk, Bool.eqb_reflx. simpl.
  now destruct (dt_instant d1 >? dt_instant d2).
Qed.

(** Both dates are there and the first to fail fails with ValueError:
    nothing is marked and nothing is raised. *)
Lemma check_modified_unreadable (r : resource) (md : hook_metadata) (w : world)
      (lm tc : string) :
  res_last_modified r = Some lm -> lm <> "" ->
  md_task_created md = Some tc -> tc <> "" ->
  parse_date P lm = inl ValueError \/
  (exists d1, parse_date P lm = inr d1 /\ parse_date P tc = inl ValueError) ->
  check_modified P r md w = (Returns false, w).
Proof.
  intros E1 N1 E2 N2 H. unfold check_modified.
  rewrite (dates_present_true _ _ _ _ E1 N1 E2 N2), E1, E2.
  unfold bind, attempt, getitem, py_parse_date, host, ret, raise. simpl.
  destruct H as [P1 | (d1 & P1 & P2)].
  - now rewrite P1.
  - rewrite P1. simpl. now rewrite P2.
Qed.

(** One of the dates is missing or empty: the URLs decide. *)
Lemma check_modified_urls (r : resource) (md : hook_metadata) (w : world) :
  res_last_modified r = None \/ res_last_modified r = Some "" \/
  md_task_created md = None \/ md_task_created md = Some "" ->
  exists resubmit,
    check_modified P r md w = (Returns resubmit, w) /\
    (resubmit = true <->
     exists url original_url,
       res_url r = Some url /\ md_original_url md = Some original_url /\
       url <> "" /\ original_url <> "" /\ url <> original_url).
Proof.
  intros Habs. unfold check_modified.
  rewrite (dates_present_false _ _ Habs).
  destruct (truthy (res_url r)) eqn:H1; simpl.
  - destruct (truthy (md_original_url md)) eqn:H2; simpl.
    + apply truthy_some in H1 as (url & E1 & N1).
      apply truthy_some in H2 as (orig & E2 & N2).
      rewrite E1, E2.
      destruct (String.eqb_spec url orig) as [E|N]; simpl; eexists;
        (split; [reflexivity|]).
      * split; [discriminate|].
        intros (u & o & A & B & _ & _ & C).
        injection A as <-. injection B as <-. contradiction.
      * split; [intros _|reflexivity]. exists url, orig. auto.
    + exists false. split; [reflexivity|]. split; [discriminate|].
      intros (u & o & A & B & _ & C & _).
      assert (truthy (md_original_url md) = true)
        by (apply truthy_some; now exists o).
      congruence.
  - exists false. split; [reflexivity|]. split; [discriminate|].
    intros (u & o & A & B & C & _ & _).
    assert (truthy (res_url r) = true) by (apply truthy_some; now exists u).
    congruence.
Qed.

(** When the dates settle, lines 201-220 return. *)
Lemma check_modified_settles (r : resource) (md : hook_metadata) (w : world) :
  dates_settle P r md ->
  exists resubmit, check_modified P r md w = (Returns resubmit, w).
Proof.
  intros Hs.
  destruct (res_last_modified r) as [lm|] eqn:E1.
  2:{ destruct (check_modified_urls r md w) as (b & Hb & _); eauto. }
  destruct (String.eqb_spec lm "") as [->|N1].
  { destruct (check_modified_urls r md w) as (b & Hb & _); eauto. }
  destruct (md_task_created md) as [tc|] eqn:E2.
  2:{ destruct (check_modified_urls r md w) as (b & Hb & _); eauto. }
  destruct (String.eqb_spec tc "") as [->|N2].
  { destruct (check_modified_urls r md w) as (b & Hb & _); eauto. }
  destruct (Hs lm tc E1 N1 E2 N2)
    as [P1 | (d1 & P1 & [P2 | (d2 & P2 & Hk)])].
  - exists false. apply (check_modified_unreadable r md w lm tc); auto.
  - exists false. apply (check_modified_unreadable r md w lm tc); eauto.
  - eexists. apply (check_modified_compared r md w lm tc d1 d2); auto.
Qed.

Lemma notify_plugins_run (ps : list plugin) (r : resource) (d : package)
      (w : world) :
  notify_plugins ps r d w = (Returns tt, record_events (after_upload_events ps r d) w).
Proof.
  revert w. induction ps as [|p ps IH]; intros w; simpl.
  - unfold ret. now rewrite record_events_nil.
  - unfold bind, emit. now rewrite IH, record_events_app.
Qed.



(** Lines 162-177: a hook that is accepted has its task dict and has read
    the clock once. *)
Lemma hook_update_accepted (dd : hook_dict) (w : world) (md : hook_metadata)
      (status res_id : string) (task : task_status) :
  hook_accepted P dd w md status res_id task ->
  hook_update P dd w =
  (resubmit <- (if (status =? "complete")%string
                then hook_complete P res_id md
                else ret false) ;;
   set_ignore_auth ;;
   task_status_update P
     (set_state_and_last_updated task status
        (PyStr (datetime_str P (clock P (w_clock_reads w))))) ;;
   ret (resubmit, res_id)) (tick w).
Proof.
  intros (Hmd & Hst & Hid & Hauth & Hshow).
  unfold hook_update, bind at 1, get_or_bust2. rewrite Hmd, Hst.
  unfold ret at 1, bind at 1, get_or_bust. rewrite Hid.
  unfold ret at 1, bind at 1, get_context, bind at 1. rewrite Hauth.
  unfold ret at 1, bind at 1. revert Hshow. unfold task_status_show.
  destruct (find _ (w_tasks w)) as [row|]; simpl; [|discriminate].
  intros H. injection H as ->. reflexivity.
Qed.

(** Lines 184-220 when the host calls succeed. *)
Lemma hook_complete_run (res_id : string) (md : hook_metadata) (w w0 : world)
      (r : resource) (d : package) :
  completion_succeeds P w res_id r d ->
  w_context w0 = w_context w ->
  hook_complete P res_id md w0 =
  check_modified P r md
    (record_events (after_upload_events (plugins P) r d ++ [EvCreateViews r d]) w0).
Proof.
  intros (Hr & Hd & Hv) Hctx.
  unfold hook_complete, bind at 1, get_context. rewrite Hctx.
  unfold bind at 1, host. rewrite Hr. unfold ret at 1, bind at 1. rewrite Hd.
  unfold ret at 1, bind at 1. rewrite notify_plugins_run.
  unfold bind at 1, emit, bind at 1. rewrite Hv. unfold ret at 1.
  now rewrite record_events_app.
Qed.

(** The end of [hook_update], lines 222-223, after a middle part that left
    the task table alone. *)
Lemma hook_update_persists (dd : hook_dict) (w w1 : world) (md : hook_metadata)
      (status res_id : string) (task : task_status) (resubmit : bool) :
  hook_accepted P dd w md status res_id task ->
  (if (status =? "complete")%string then hook_complete P res_id md else ret false)
    (tick w) = (Returns resubmit, w1) ->
  w_tasks w1 = w_tasks w ->
  hook_update P dd w =
  (Returns (resubmit, res_id),
   with_tasks
     (overwrite (fun r => (row_id r =? row_id task)%string)
        (set_state_and_last_updated task status
           (PyStr (datetime_str P (clock P (w_clock_reads w)))))
        (w_tasks w))
     (record_events
        [EvTaskStatusUpdate
           (set_state_and_last_updated task status
              (PyStr (datetime_str P (clock P (w_clock_reads w)))))]
        (ignore_auth w1))).
Proof.
  intros Hacc Hmid Hrows.
  rewrite (hook_update_accepted _ _ _ _ _ _ Hacc).
  unfold bind at 1. rewrite Hmid.
  unfold bind at 1, set_ignore_auth, bind at 1.
  rewrite (task_status_update_by_id _ (row_id task)); [|reflexivity|].
  - simpl. now rewrite Hrows.
  - simpl. rewrite Hrows. destruct Hacc as (_ & _ & _ & _ & Hshow).
    exact (shown_has_id _ _ _ Hshow).
Qed.

(** C7: a hook for a resource that has no task under task_type "shift" and
    key "shift" fails with NotFound, which reaches the caller, and leaves
    the world as it found it: no task is created, no task record is
    written. *)
Theorem hook_without_task (dd : hook_dict) (w : world) (md : hook_metadata)
        (status res_id : string) :
  hd_metadata dd = Some md ->
  hd_status dd = Some status ->
  md_resource_id md = Some res_id ->
  check_access P "shift_submit" (w_context w) res_id = true ->
  fst (task_status_show res_id "shift" "shift" w) = Raises NotFound ->
  shift_hook P dd w = (Raises NotFound, w).
Proof.
  intros Hmd Hst Hid Hauth Hshow.
  unfold shift_hook, hook_update, bind, get_or_bust2, get_or_bust, get_context.
  rewrite Hmd, Hst. simpl. rewrite Hid. simpl. rewrite Hauth. simpl.
  revert Hshow. unfold task_status_show.
  destruct (find _ (w_tasks w)); simpl; [discriminate | reflexivity].
Qed.




(** [task_status_update] logs the dict it is given and touches nothing but
    the task table. *)
Lemma task_status_update_world (t : task) (w : world) :
  exists o rows,
    task_status_update P t w =
    (o, with_tasks rows (record_events [EvTaskStatusUpdate t] w)).
Proof.
  unfold task_status_update, bind, emit, set_tasks. simpl.
  destruct (task_id t) as [id|].
  - destruct (existsb _ (w_tasks w)).
    + eexists _, _. reflexivity.
    + exists (Raises NotFound), (w_tasks w). now destruct w.
  - destruct (existsb _ (w_tasks w)); eexists _, _; reflexivity.
Qed.





(** Line 145, on every input: when lines 118-148 return True, their second
    task update is "pending", holds the job reference, and has a
    one-element tuple as ['last_updated']. *)
Lemma submit_enqueue_true (rs : resolved) (t : task) (w w' : world) :
  submit_enqueue P rs t w = (Returns true, w') ->
  exists evs t2 job_id s,
    w_trace w' = (w_trace w ++ evs)%list /\
    updates evs = [t; t2] /\
    task_state t2 = "pending" /\
    task_value t2 = [("job_id", JString job_id); ("job_key", JNull)] /\
    task_last_updated t2 = PyTuple1 s.
Proof.
  unfold submit_enqueue, bind at 1, set_ignore_auth. unfold bind at 1.
  destruct (task_status_update_world t (ignore_auth w)) as (o & rows & E).
  rewrite E. destruct o as [[]|e]; [|discriminate].
  unfold bind at 1, getitem.
  destruct (user_apikey (rs_user rs)) as [api_key|]; [|discriminate].
  unfold ret at 1, bind at 1, attempt, py_enqueue_job. simpl w_queue.
  match goal with |- context [enqueue_job P ?q ?d] =>
    destruct (enqueue_job P q d) as [e|job_id]; set (data := d) end;
    [discriminate|].
  unfold bind at 1, utcnow. simpl clock. unfold bind at 1.
  match goal with |- context [task_status_update P ?u ?v] =>
    destruct (task_status_update_world u v) as (o2 & rows2 & E2);
    set (t2 := u) in * end.
  rewrite E2. destruct o2 as [[]|e]; [|discriminate].
  unfold ret. intros H. injection H as <-.
  exists [EvTaskStatusUpdate t; EvEnqueue data; EvTaskStatusUpdate t2], t2,
    job_id, (datetime_str P (clock P (w_clock_reads w))).
  simpl. rewrite <- !app_assoc. repeat split; reflexivity.
Qed.

(** ** Further properties of [shift_submit] *)

(** Lines 81-116 read the clock and nothing else changes. *)
Lemma submit_task_world (res_id : string) (w : world) :
  w_tasks (snd (submit_task P res_id w)) = w_tasks w /\
  w_queue (snd (submit_task P res_id w)) = w_queue w /\
  w_context (snd (submit_task P res_id w)) = w_context w /\
  w_trace (snd (submit_task P res_id w)) = w_trace w.
Proof.
  unfold submit_task, bind, attempt, utcnow, task_status_show, host. simpl.
  destruct (find _ (w_tasks w)) as [row|]; simpl; [|auto].
  destruct (assume_task_stale_after P) as [e|window]; simpl; [auto|].
  destruct (row_state row =? "pending")%string; simpl; [|auto].
  unfold py_strptime. destruct (row_last_updated row) as [s|s]; simpl; [|auto].
  destruct (strptime P s) as [updated|]; simpl; [|auto].
  destruct (_ >? _); simpl; auto.
Qed.

(** The dict lines 81-116 hand on is the new "submitting" task, with or
    without an id. *)
Lemma submit_task_some (res_id : string) (w w3 : world) (t : task) :
  submit_task P res_id w = (Returns (Some t), w3) ->
  exists id, t = submitting_task P id res_id (clock P (w_clock_reads w)).
Proof.
  unfold submit_task, bind, attempt, utcnow, task_status_show, host. simpl.
  destruct (find _ (w_tasks w)) as [row|]; simpl.
  - destruct (assume_task_stale_after P) as [e|window]; simpl; [discriminate|].
    destruct (row_state row =? "pending")%string; simpl.
    + unfold py_strptime. destruct (row_last_updated row) as [s|s]; simpl;
        [|discriminate].
      destruct (strptime P s) as [updated|]; simpl; [|discriminate].
      destruct (_ >? _); simpl; [|discriminate].
      intros H. injection H as <- _. now exists (Some (row_id row)).
    + intros H. injection H as <- _. now exists (Some (row_id row)).
  - intros H. injection H as <- _. now exists None.
Qed.

(** Lines 118-148 return True or raise. *)
Lemma submit_enqueue_not_false (rs : resolved) (t : task) (w : world) :
  fst (submit_enqueue P rs t w) <> Returns false.
Proof.
  unfold submit_enqueue, bind at 1, set_ignore_auth. unfold bind at 1.
  destruct (task_status_update_world t (ignore_auth w)) as (o & rows & E).
  rewrite E. destruct o as [[]|e]; [|discriminate].
  unfold bind at 1, getitem.
  destruct (user_apikey (rs_user rs)) as [api_key|]; [|discriminate].
  unfold ret at 1, bind at 1, attempt, py_enqueue_job. simpl w_queue.
  match goal with |- context [enqueue_job P ?q ?d] =>
    destruct (enqueue_job P q d) as [e|job_id] end; [discriminate|].
  unfold bind at 1, utcnow. simpl clock. unfold bind at 1.
  match goal with |- context [task_status_update P ?u ?v] =>
    destruct (task_status_update_world u v) as (o2 & rows2 & E2) end.
  rewrite E2. destruct o2 as [[]|e]; discriminate.
Qed.

Lemma consulted_all (ps : list plugin) (res_id : string) :
  forallb (fun p => can_upload p res_id) ps = true ->
  consulted ps res_id = ps.
Proof.
  induction ps as [|p ps IH]; simpl; [reflexivity|].
  destruct (can_upload p res_id); simpl; [|discriminate].
  intros H. now rewrite IH.
Qed.

Lemma enqueued_can_upload (ps : list plugin) (res_id : string) :
  enqueued (can_upload_events ps res_id) = [].
Proof.
  induction ps as [|p ps IH]; simpl; [reflexivity | exact IH].
Qed.

Lemma writes_app (evs evs' : list event) :
  writes (evs ++ evs')%list = (writes evs ++ writes evs')%list.
Proof.
  apply filter_app.
Qed.

(** X1: False means that nothing was done.  Whenever [shift_submit]
    returns False (resource not found, plugin veto, or a pending task that
    is not stale), the task table, the queue and the context are as they
    were and the trace has gained no task update and no job. *)
Theorem submit_false_writes_nothing (dd : submit_dict) (w w' : world) :
  shift_submit P dd w = (Returns false, w') ->
  w_tasks w' = w_tasks w /\
  w_queue w' = w_queue w /\
  w_context w' = w_context w /\
  writes (w_trace w') = writes (w_trace w).
Proof.
  destruct (submit_resolve P dd w) as [o w0] eqn:E.
  pose proof (submit_resolve_world _ _ _ _ E) as ->.
  destruct o as [[rs|]|e].
  - assert (Hres : fst (submit_resolve P dd w) = Returns (Some rs))
      by now rewrite E.
    rewrite (shift_submit_resolved _ _ _ Hres).
    set (evs := can_upload_events _ _).
    assert (Hevs : writes (w_trace w ++ evs) = writes (w_trace w)).
    { unfold evs. now rewrite writes_app, writes_can_upload, app_nil_r. }
    destruct (forallb _ (plugins P)).
    + unfold bind.
      destruct (submit_task_world (rs_res_id rs) (record_events evs w))
        as (Ht & Hq & Hc & Htr).
      destruct (submit_task P (rs_res_id rs) (record_events evs w))
        as [[[t|]|e] w3]; simpl in Ht, Hq, Hc, Htr.
      * intros H. exfalso.
        apply (submit_enqueue_not_false rs t w3). now rewrite H.
      * intros H. injection H as <-. rewrite Ht, Hq, Hc, Htr. auto.
      * discriminate.
    + intros H. injection H as <-. simpl. auto.
  - unfold shift_submit, bind. rewrite E. intros H. injection H as <-. auto.
  - unfold shift_submit, bind. rewrite E. discriminate.
Qed.

(** Lines 118-148 when they return True: the one job, the two task updates,
    the queue and the context. *)
Lemma submit_enqueue_true_run (rs : resolved) (t : task) (w w' : world) :
  submit_enqueue P rs t w = (Returns true, w') ->
  exists api_key job_id,
    user_apikey (rs_user rs) = Some api_key /\
    enqueue_job P (w_queue w) (job_data rs api_key (task_last_updated t))
      = inr job_id /\
    w_trace w' =
      (w_trace w ++
       [EvTaskStatusUpdate t;
        EvEnqueue (job_data rs api_key (task_last_updated t));
        EvTaskStatusUpdate
          (pending_task t job_id
             (PyTuple1 (datetime_str P (clock P (w_clock_reads w)))))])%list /\
    w_queue w' =
      (w_queue w ++ [job_data rs api_key (task_last_updated t)])%list /\
    w_context w' = ignoring_auth (w_context w).
Proof.
  unfold submit_enqueue, bind at 1, set_ignore_auth. unfold bind at 1.
  destruct (task_status_update_world t (ignore_auth w)) as (o & rows & E).
  rewrite E. destruct o as [[]|e]; [|discriminate].
  unfold bind at 1, getitem.
  destruct (user_apikey (rs_user rs)) as [api_key|]; [|discriminate].
  unfold ret at 1, bind at 1, attempt, py_enqueue_job. simpl w_queue.
  fold (job_data rs api_key (task_last_updated t)).
  destruct (enqueue_job P (w_queue w) (job_data rs api_key (task_last_updated t)))
    as [e|job_id] eqn:Eq; [discriminate|].
  unfold bind at 1, utcnow. simpl clock. unfold bind at 1.
  match goal with |- context [task_status_update P ?u ?v] =>
    destruct (task_status_update_world u v) as (o2 & rows2 & E2) end.
  rewrite E2. destruct o2 as [[]|e]; [|discriminate].
  unfold ret. intros H. injection H as <-.
  exists api_key, job_id. simpl. rewrite <- !app_assoc.
  repeat split; auto.
Qed.

(** [shift_submit] when it returns True. *)
Lemma shift_submit_true_run (dd : submit_dict) (w w' : world) :
  shift_submit P dd w = (Returns true, w') ->
  exists rs id api_key job_id now,
    fst (submit_resolve P dd w) = Returns (Some rs) /\
    forallb (fun p => can_upload p (rs_res_id rs)) (plugins P) = true /\
    user_apikey (rs_user rs) = Some api_key /\
    enqueue_job P (w_queue w)
      (job_data rs api_key (PyStr (datetime_str P (clock P (w_clock_reads w)))))
      = inr job_id /\
    w_trace w' =
      (w_trace w ++ can_upload_events (plugins P) (rs_res_id rs) ++
       [EvTaskStatusUpdate
          (submitting_task P id (rs_res_id rs) (clock P (w_clock_reads w)));
        EvEnqueue
          (job_data rs api_key
             (PyStr (datetime_str P (clock P (w_clock_reads w)))));
        EvTaskStatusUpdate
          (pending_task
             (submitting_task P id (rs_res_id rs) (clock P (w_clock_reads w)))
             job_id (PyTuple1 (datetime_str P now)))])%list /\
    w_queue w' =
      (w_queue w ++
       [job_data rs api_key
          (PyStr (datetime_str P (clock P (w_clock_reads w))))])%list /\
    w_context w' = ignoring_auth (w_context w).
Proof.
  destruct (submit_resolve P dd w) as [o w0] eqn:E.
  pose proof (submit_resolve_world _ _ _ _ E) as ->.
  destruct o as [[rs|]|e].
  2,3: unfold shift_submit, bind; rewrite E; discriminate.
  assert (Hres : fst (submit_resolve P dd w) = Returns (Some rs))
    by now rewrite E.
  rewrite (shift_submit_resolved _ _ _ Hres).
  destruct (forallb _ (plugins P)) eqn:Hall; [|discriminate].
  rewrite (consulted_all _ _ Hall).
  set (evs := can_upload_events _ _). unfold bind.
  destruct (submit_task_world (rs_res_id rs) (record_events evs w))
    as (Ht & Hq & Hc & Htr).
  destruct (submit_task P (rs_res_id rs) (record_events evs w))
    as [[[t|]|e] w3] eqn:Etask; simpl in Ht, Hq, Hc, Htr; try discriminate.
  destruct (submit_task_some _ _ _ _ Etask) as (id & ->).
  intros Hrun.
  destruct (submit_enqueue_true_run _ _ _ _ Hrun)
    as (api_key & job_id & Hkey & Henq & Htrace & Hqueue & Hctx).
  exists rs, id, api_key, job_id, (clock P (w_clock_reads w3)).
  rewrite Hq in Henq. rewrite Htrace, Htr, Hqueue, Hq, Hctx, Hc. simpl.
  rewrite <- !app_assoc. repeat split; auto.
Qed.

(** X2: True means one job and two task updates.  Whenever [shift_submit]
    returns True, the queue has grown by exactly the request of lines
    121-133 (job type "push_to_datastore", the callback URL under the site
    URL, the API key of the user, the flags of the validated dict, the URL
    of the resource), whose ['task_created'] is the ['last_updated'] written
    in the "submitting" task; and exactly two task updates were made, the
    "submitting" task and then the same dict as "pending" with the id the
    queue returned as its value. *)
Theorem submit_true_enqueues_one_job (dd : submit_dict) (w w' : world) :
  shift_submit P dd w = (Returns true, w') ->
  exists rs api_key job_id evs t1 t2,
    fst (submit_resolve P dd w) = Returns (Some rs) /\
    user_apikey (rs_user rs) = Some api_key /\
    enqueue_job P (w_queue w) (job_data rs api_key (task_last_updated t1))
      = inr job_id /\
    w_queue w' =
      (w_queue w ++ [job_data rs api_key (task_last_updated t1)])%list /\
    w_trace w' = (w_trace w ++ evs)%list /\
    enqueued evs = [job_data rs api_key (task_last_updated t1)] /\
    updates evs = [t1; t2] /\
    task_state t1 = "submitting" /\
    task_entity_id t1 = rs_res_id rs /\
    task_last_updated t1 = PyStr (datetime_str P (clock P (w_clock_reads w))) /\
    exists last_updated, t2 = pending_task t1 job_id last_updated.
Proof.
  intros Hrun.
  destruct (shift_submit_true_run _ _ _ Hrun)
    as (rs & id & api_key & job_id & now & Hres & Hall & Hkey & Henq & Htr
        & Hq & Hctx).
  exists rs, api_key, job_id.
  eexists.
  exists (submitting_task P id (rs_res_id rs) (clock P (w_clock_reads w))).
  eexists.
  split; [exact Hres|]. split; [exact Hkey|].
  split; [exact Henq|]. split; [exact Hq|]. split; [exact Htr|].
  rewrite !enqueued_app, !updates_app, updates_can_upload.
  rewrite enqueued_can_upload. simpl. repeat split; try reflexivity. eexists. reflexivity.
Qed.

(** X3: True means that every plugin agreed.  Whenever [shift_submit]
    returns True, each registered plugin was asked exactly once, in
    registration order, each accepted, and all were asked before the first
    write: the trace gained their [can_upload] calls followed by exactly
    three writes. *)
Theorem submit_true_consults_every_plugin (dd : submit_dict) (w w' : world) :
  shift_submit P dd w = (Returns true, w') ->
  exists rs e1 e2 e3,
    fst (submit_resolve P dd w) = Returns (Some rs) /\
    forallb (fun p => can_upload p (rs_res_id rs)) (plugins P) = true /\
    w_trace w' =
      (w_trace w ++ can_upload_events (plugins P) (rs_res_id rs)
       ++ [e1; e2; e3])%list /\
    is_write e1 = true /\ is_write e2 = true /\ is_write e3 = true.
Proof.
  intros Hrun.
  destruct (shift_submit_true_run _ _ _ Hrun)
    as (rs & id & api_key & job_id & now & Hres & Hall & Hkey & Henq & Htr
        & Hq & Hctx).
  exists rs. eexists. eexists. eexists.
  split; [exact Hres|]. split; [exact Hall|]. split; [exact Htr|].
  repeat split; reflexivity.
Qed.

(** X4: True leaves ['ignore_auth'] set.  Whenever [shift_submit] returns
    True, the context of the caller has ['ignore_auth'] set to True (line
    118) and is otherwise as it was. *)
Theorem submit_true_sets_ignore_auth (dd : submit_dict) (w w' : world) :
  shift_submit P dd w = (Returns true, w') ->
  ctx_ignore_auth (w_context w') = true /\
  ctx_user (w_context w') = ctx_user (w_context w) /\
  ctx_schema (w_context w') = ctx_schema (w_context w).
Proof.
  intros Hrun.
  destruct (shift_submit_true_run _ _ _ Hrun)
    as (rs & id & api_key & job_id & now & Hres & Hall & Hkey & Henq & Htr
        & Hq & Hctx).
  rewrite Hctx. repeat split; reflexivity.
Qed.

(** X5: validation comes first.  When the schema reports errors,
    [shift_submit] raises a ValidationError that carries them and leaves the
    world as it found it: the caller's rights, the resource and the plugins
    are not looked at. *)
Theorem submit_validation_error (dd dd' : submit_dict)
        (errors : list (string * string)) (w : world) :
  submit_schema P (w_context w) dd = (dd', errors) ->
  errors <> [] ->
  shift_submit P dd w = (Raises (ValidationError errors), w).
Proof.
  intros Hvalid Herr.
  unfold shift_submit, submit_resolve, bind, get_context.
  rewrite Hvalid. destruct errors; [contradiction | reflexivity].
Qed.

(** X6: authorization comes before the resource.  When the caller may not
    submit the resource, [shift_submit] raises NotAuthorized and leaves the
    world as it found it, whether the resource exists or not. *)
Theorem submit_not_authorized (dd dd' : submit_dict) (res_id : string)
        (w : world) :
  submit_schema P (w_context w) dd = (dd', []) ->
  dd_resource_id dd' = Some res_id ->
  check_access P "shift_submit" (w_context w) res_id = false ->
  shift_submit P dd w = (Raises NotAuthorized, w).
Proof.
  intros Hvalid Hid Hauth.
  unfold shift_submit, submit_resolve, bind, get_context.
  rewrite Hvalid. simpl. rewrite Hid. simpl. now rewrite Hauth.
Qed.

Lemma show_not_found (res_id : string) (w : world) :
  fst (task_status_show res_id "shift" "shift" w) = Raises NotFound ->
  existsb (same_key res_id "shift" "shift") (w_tasks w) = false.
Proof.
  unfold task_status_show.
  destruct (find _ (w_tasks w)) as [r|] eqn:E; simpl; [discriminate|].
  intros _. destruct (existsb _ (w_tasks w)) eqn:Ex; [|reflexivity].
  apply existsb_exists in Ex as (r & Hin & Hr).
  now rewrite (find_none _ _ E r Hin) in Hr.
Qed.

(** Lines 81-116 when the resource has no task: the dict has no id, the
    clock was read once, the staleness setting was not. *)
Lemma submit_task_new (res_id : string) (w : world) :
  fst (task_status_show res_id "shift" "shift" w) = Raises NotFound ->
  submit_task P res_id w =
  (Returns (Some (submitting_task P None res_id (clock P (w_clock_reads w)))),
   tick w).
Proof.
  unfold task_status_show.
  unfold submit_task, bind, attempt, utcnow, task_status_show. simpl.
  destruct (find _ (w_tasks w)); simpl; [discriminate | reflexivity].
Qed.

(** [task_status_update] of a dict without id, for a key the table does
    not hold: a row is added under the id the host chooses. *)
Lemma task_status_update_new (t : task) (w : world) :
  task_id t = None ->
  existsb (same_key (task_entity_id t) (task_task_type t) (task_key t))
          (w_tasks w) = false ->
  task_status_update P t w =
  (Returns tt,
   with_tasks (w_tasks w ++ [row_of_task (new_task_id P (w_tasks w)) t])
              (record_events [EvTaskStatusUpdate t] w)).
Proof.
  intros Hid Hnone. unfold task_status_update, bind, emit. simpl.
  now rewrite Hid, Hnone.
Qed.

(** [task_status_update] of a dict without id, for a key the table holds. *)
Lemma task_status_update_by_key (t : task) (w : world) :
  task_id t = None ->
  existsb (same_key (task_entity_id t) (task_task_type t) (task_key t))
          (w_tasks w) = true ->
  task_status_update P t w =
  (Returns tt,
   with_tasks
     (overwrite (same_key (task_entity_id t) (task_task_type t) (task_key t))
                t (w_tasks w))
     (record_events [EvTaskStatusUpdate t] w)).
Proof.
  intros Hid Hsome. unfold task_status_update, bind, emit. simpl.
  now rewrite Hid, Hsome.
Qed.

Lemma overwrite_none (sel : task_status -> bool) (t : task)
      (rows : list task_status) :
  existsb sel rows = false -> overwrite sel t rows = rows.
Proof.
  induction rows as [|r rows IH]; simpl; [reflexivity|].
  destruct (sel r); simpl; [discriminate|]. intros H. now rewrite IH.
Qed.

Lemma overwrite_app (sel : task_status -> bool) (t : task)
      (rows rows' : list task_status) :
  overwrite sel t (rows ++ rows') = (overwrite sel t rows ++ overwrite sel t rows')%list.
Proof.
  induction rows as [|r rows IH]; simpl; [reflexivity|]. now rewrite IH.
Qed.

(** X7: a resource without task, submitted with success, gets exactly one
    row.  The first update adds a row under the id the host chooses; the
    second, which carries no id either, is matched to that row by its key
    and leaves it "pending" with the job reference: the table is the old
    one followed by this one row. *)
Theorem submit_creates_one_task (dd : submit_dict) (w : world) (rs : resolved)
        (api_key job_id : string) :
  fst (submit_resolve P dd w) = Returns (Some rs) ->
  forallb (fun p => can_upload p (rs_res_id rs)) (plugins P) = true ->
  fst (task_status_show (rs_res_id rs) "shift" "shift" w) = Raises NotFound ->
  user_apikey (rs_user rs) = Some api_key ->
  enqueue_job P (w_queue w)
    (job_data rs api_key (PyStr (datetime_str P (clock P (w_clock_reads w)))))
    = inr job_id ->
  exists w',
    shift_submit P dd w = (Returns true, w') /\
    w_tasks w' =
      (w_tasks w ++
       [row_of_task (new_task_id P (w_tasks w))
          (pending_task
             (submitting_task P None (rs_res_id rs) (clock P (w_clock_reads w)))
             job_id
             (PyTuple1 (datetime_str P (clock P (S (w_clock_reads w))))))])%list.
Proof.
  intros Hres Hall Hshow Hkey Henq.
  rewrite (shift_submit_resolved _ _ _ Hres), Hall, (consulted_all _ _ Hall).
  set (evs := can_upload_events _ _). unfold bind at 1.
  rewrite submit_task_new
    by now rewrite (task_status_show_fst _ _ _ _ w).
  unfold submit_enqueue, bind at 1, set_ignore_auth. unfold bind at 1.
  rewrite task_status_update_new; [|reflexivity|exact (show_not_found _ _ Hshow)].
  unfold bind at 1, getitem. rewrite Hkey.
  unfold ret at 1, bind at 1, attempt, py_enqueue_job. simpl w_queue.
  match goal with |- context [enqueue_job P ?q ?d] =>
    change (enqueue_job P q d)
      with (enqueue_job P (w_queue w)
              (job_data rs api_key
                 (PyStr (datetime_str P (clock P (w_clock_reads w)))))) end.
  rewrite Henq.
  unfold bind at 1, utcnow. simpl clock. unfold bind at 1.
  rewrite task_status_update_by_key; [|reflexivity|].
  2:{ simpl. rewrite existsb_app. simpl.
      unfold same_key at 2. simpl. rewrite !String.eqb_refl. simpl.
      apply orb_true_r. }
  eexists. split; [reflexivity|]. simpl.
  rewrite overwrite_app, overwrite_none by exact (show_not_found _ _ Hshow).
  simpl. unfold same_key. simpl. now rewrite !String.eqb_refl.
Qed.

(** X8: when [enqueue_job] raises for the first submission of a resource,
    [shift_submit] raises too, no job is queued, and the row it had just
    added stays in state "submitting". *)
Theorem enqueue_failure_leaves_submitting (dd : submit_dict) (w : world)
        (rs : resolved) (api_key : string) (e : exn) :
  fst (submit_resolve P dd w) = Returns (Some rs) ->
  forallb (fun p => can_upload p (rs_res_id rs)) (plugins P) = true ->
  fst (task_status_show (rs_res_id rs) "shift" "shift" w) = Raises NotFound ->
  user_apikey (rs_user rs) = Some api_key ->
  enqueue_job P (w_queue w)
    (job_data rs api_key (PyStr (datetime_str P (clock P (w_clock_reads w)))))
    = inl e ->
  exists e' w',
    shift_submit P dd w = (Raises e', w') /\
    w_queue w' = w_queue w /\
    w_tasks w' =
      (w_tasks w ++
       [row_of_task (new_task_id P (w_tasks w))
          (submitting_task P None (rs_res_id rs)
                           (clock P (w_clock_reads w)))])%list.
Proof.
  intros Hres Hall Hshow Hkey Henq.
  rewrite (shift_submit_resolved _ _ _ Hres), Hall, (consulted_all _ _ Hall).
  set (evs := can_upload_events _ _). unfold bind at 1.
  rewrite submit_task_new
    by now rewrite (task_status_show_fst _ _ _ _ w).
  unfold submit_enqueue, bind at 1, set_ignore_auth. unfold bind at 1.
  rewrite task_status_update_new; [|reflexivity|exact (show_not_found _ _ Hshow)].
  unfold bind at 1, getitem. rewrite Hkey.
  unfold ret at 1, bind at 1, attempt, py_enqueue_job. simpl w_queue.
  match goal with |- context [enqueue_job P ?q ?d] =>
    change (enqueue_job P q d)
      with (enqueue_job P (w_queue w)
              (job_data rs api_key
                 (PyStr (datetime_str P (clock P (w_clock_reads w)))))) end.
  rewrite Henq.
  eexists. eexists. split; [reflexivity|]. simpl. auto.
Qed.

(** X9: a pending task whose ['last_updated'] [strptime] cannot read.  The
    ValueError is not the NotFound that line 115 catches: [shift_submit]
    raises it, and nothing is written and nothing enqueued. *)
Theorem submit_unreadable_last_updated (dd : submit_dict) (w : world)
        (rs : resolved) (existing : task_status) (last_updated : string)
        (window : Z) :
  fst (submit_resolve P dd w) = Returns (Some rs) ->
  forallb (fun p => can_upload p (rs_res_id rs)) (plugins P) = true ->
  fst (task_status_show (rs_res_id rs) "shift" "shift" w) = Returns existing ->
  row_state existing = "pending" ->
  row_last_updated existing = PyStr last_updated ->
  strptime P last_updated = None ->
  assume_task_stale_after P = inr window ->
  exists w',
    shift_submit P dd w = (Raises ValueError, w') /\
    w_tasks w' = w_tasks w /\
    w_queue w' = w_queue w /\
    writes (w_trace w') = writes (w_trace w).
Proof.
  intros Hres Hall Hshow Hstate Hlast Hparse Hwin.
  rewrite (shift_submit_resolved _ _ _ Hres), Hall.
  set (evs := can_upload_events _ _).
  assert (Hevs : writes (w_trace w ++ evs) = writes (w_trace w)).
  { unfold evs. now rewrite writes_app, writes_can_upload, app_nil_r. }
  unfold bind at 1, submit_task, bind, attempt, utcnow, task_status_show, host.
  simpl. revert Hshow. unfold task_status_show.
  destruct (find _ (w_tasks w)) as [r|]; simpl; [|discriminate].
  intros H. injection H as ->. rewrite Hwin. unfold ret at 1.
  rewrite Hstate. simpl. rewrite Hlast. unfold py_strptime. rewrite Hparse.
  eexists. split; [reflexivity|]. simpl. auto.
Qed.

(** X18: a user record without ['apikey'].  The KeyError of line 122 is
    raised after the task was written: for the first submission of a
    resource, [shift_submit] raises it, no job is queued, and the row it
    had just added stays in state "submitting". *)
Theorem submit_without_api_key (dd : submit_dict) (w : world) (rs : resolved) :
  fst (submit_resolve P dd w) = Returns (Some rs) ->
  forallb (fun p => can_upload p (rs_res_id rs)) (plugins P) = true ->
  fst (task_status_show (rs_res_id rs) "shift" "shift" w) = Raises NotFound ->
  user_apikey (rs_user rs) = None ->
  exists w',
    shift_submit P dd w = (Raises (KeyError "apikey"), w') /\
    w_queue w' = w_queue w /\
    w_tasks w' =
      (w_tasks w ++
       [row_of_task (new_task_id P (w_tasks w))
          (submitting_task P None (rs_res_id rs)
                           (clock P (w_clock_reads w)))])%list.
Proof.
  intros Hres Hall Hshow Hkey.
  rewrite (shift_submit_resolved _ _ _ Hres), Hall, (consulted_all _ _ Hall).
  set (evs := can_upload_events _ _). unfold bind at 1.
  rewrite submit_task_new
    by now rewrite (task_status_show_fst _ _ _ _ w).
  unfold submit_enqueue, bind at 1, set_ignore_auth. unfold bind at 1.
  rewrite task_status_update_new; [|reflexivity|exact (show_not_found _ _ Hshow)].
  unfold bind at 1, getitem. rewrite Hkey.
  eexists. split; [reflexivity|]. simpl. auto.
Qed.

(** X19: a site without ['ckan.site_url'].  The KeyError of line 68 is
    raised once the resource is found, before any plugin is asked, and the
    world is as it was. *)
Theorem submit_without_site_url (dd dd' : submit_dict) (res_id : string)
        (w : world) (r : resource) :
  submit_schema P (w_context w) dd = (dd', []) ->
  dd_resource_id dd' = Some res_id ->
  check_access P "shift_submit" (w_context w) res_id = true ->
  resource_show P (w_context w) res_id = inr r ->
  config_site_url P = None ->
  shift_submit P dd w = (Raises (KeyError "ckan.site_url"), w).
Proof.
  intros Hvalid Hid Hauth Hshow Hsite.
  unfold shift_submit, submit_resolve, bind, get_context, attempt, host.
  rewrite Hvalid. simpl. rewrite Hid. simpl. rewrite Hauth. simpl.
  rewrite Hshow. simpl. now rewrite Hsite.
Qed.

(** ** Further properties of [shift_hook] *)

(** Lines 184-220 touch neither the task table, nor the queue, nor the
    context, whatever their outcome. *)
Lemma hook_complete_world (res_id : string) (md : hook_metadata) (w w' : world)
      (o : outcome bool) :
  hook_complete P res_id md w = (o, w') ->
  w_tasks w' = w_tasks w /\ w_queue w' = w_queue w /\
  w_context w' = w_context w.
Proof.
  unfold hook_complete, bind at 1, get_context. unfold bind at 1, host.
  destruct (resource_show P (w_context w) res_id) as [e|r]; simpl.
  { intros H. injection H as _ <-. auto. }
  unfold bind at 1.
  destruct (package_show P (w_context w) (res_package_id r)) as [e|d]; simpl.
  { intros H. injection H as _ <-. auto. }
  unfold bind at 1. rewrite notify_plugins_run. unfold bind at 1, emit.
  unfold bind at 1.
  destruct (create_default_resource_views P (w_context w) r d) as [e|[]]; simpl.
  { intros H. injection H as _ <-. auto. }
  match goal with |- context [check_modified P r md ?v] =>
    pose proof (check_modified_world r md v) as Hw;
    destruct (check_modified P r md v) as [o' w''] end.
  simpl in Hw. subst. intros H. injection H as _ <-. auto.
Qed.

(** What a [hook_update] that returns has done. *)
Lemma hook_update_returns (dd : hook_dict) (w w1 : world) (resubmit : bool)
      (res_id : string) :
  hook_update P dd w = (Returns (resubmit, res_id), w1) ->
  exists md status task wm,
    hook_accepted P dd w md status res_id task /\
    (if (status =? "complete")%string then hook_complete P res_id md
     else ret false) (tick w) = (Returns resubmit, wm) /\
    w_tasks wm = w_tasks w /\
    w_context wm = w_context w /\
    w1 = with_tasks
           (overwrite (fun r => (row_id r =? row_id task)%string)
              (set_state_and_last_updated task status
                 (PyStr (datetime_str P (clock P (w_clock_reads w)))))
              (w_tasks w))
           (record_events
              [EvTaskStatusUpdate
                 (set_state_and_last_updated task status
                    (PyStr (datetime_str P (clock P (w_clock_reads w)))))]
              (ignore_auth wm)).
Proof.
  intros Hrun.
  destruct (hd_metadata dd) as [md|] eqn:Hmd.
  2:{ revert Hrun. unfold hook_update, bind at 1, get_or_bust2.
      rewrite Hmd. discriminate. }
  destruct (hd_status dd) as [status|] eqn:Hst.
  2:{ revert Hrun. unfold hook_update, bind at 1, get_or_bust2.
      rewrite Hmd, Hst. discriminate. }
  destruct (md_resource_id md) as [rid|] eqn:Hid.
  2:{ revert Hrun. unfold hook_update, bind at 1, get_or_bust2.
      rewrite Hmd, Hst. unfold ret at 1, bind at 1, get_or_bust.
      rewrite Hid. discriminate. }
  destruct (check_access P "shift_submit" (w_context w) rid) eqn:Hauth.
  2:{ revert Hrun. unfold hook_update, bind at 1, get_or_bust2.
      rewrite Hmd, Hst. unfold ret at 1, bind at 1, get_or_bust.
      rewrite Hid. unfold ret at 1, bind at 1, get_context, bind at 1.
      rewrite Hauth. discriminate. }
  destruct (fst (task_status_show rid "shift" "shift" w)) as [task|e] eqn:Hshow.
  2:{ revert Hrun Hshow. unfold hook_update, bind at 1, get_or_bust2.
      rewrite Hmd, Hst. unfold ret at 1, bind at 1, get_or_bust.
      rewrite Hid. unfold ret at 1, bind at 1, get_context, bind at 1.
      rewrite Hauth. unfold ret at 1, bind at 1, task_status_show.
      destruct (find _ (w_tasks w)); simpl; discriminate. }
  assert (Hacc : hook_accepted P dd w md status rid task)
    by (repeat split; assumption).
  rewrite (hook_update_accepted _ _ _ _ _ _ Hacc) in Hrun.
  unfold bind at 1 in Hrun.
  assert (Hw : forall o wm,
             (if (status =? "complete")%string then hook_complete P rid md
              else ret false) (tick w) = (o, wm) ->
             w_tasks wm = w_tasks w /\ w_context wm = w_context w).
  { intros o wm. destruct (status =? "complete")%string.
    - intros E. destruct (hook_complete_world _ _ _ _ _ E) as (Ht & _ & Hc).
      auto.
    - intros E. injection E as _ <-. auto. }
  destruct ((if (status =? "complete")%string then hook_complete P rid md
             else ret false) (tick w)) as [o wm] eqn:Emid.
  destruct (Hw _ _ eq_refl) as (Ht & Hc).
  destruct o as [b|e]; [|discriminate].
  unfold bind at 1, set_ignore_auth, bind at 1 in Hrun.
  rewrite (task_status_update_by_id _ (row_id task)) in Hrun;
    [|reflexivity|].
  2:{ simpl. rewrite Ht. exact (shown_has_id _ _ _ Hshow). }
  unfold ret in Hrun. injection Hrun as -> -> <-.
  exists md, status, task, wm. simpl. rewrite Ht. auto.
Qed.

(** X10: a status other than "complete".  An accepted hook then does the
    task update and nothing else: no resource is fetched, no plugin is
    notified, no view is made, nothing is resubmitted or enqueued, and the
    hook returns. *)
Theorem hook_other_status (dd : hook_dict) (w : world) (md : hook_metadata)
        (status res_id : string) (task : task_status) :
  hook_accepted P dd w md status res_id task ->
  status <> "complete" ->
  exists w1,
    shift_hook P dd w = (Returns tt, w1) /\
    w_trace w1 =
      (w_trace w ++
       [EvTaskStatusUpdate
          (set_state_and_last_updated task status
             (PyStr (datetime_str P (clock P (w_clock_reads w)))))])%list /\
    w_queue w1 = w_queue w.
Proof.
  intros Hacc Hne.
  assert (Hmid : (if (status =? "complete")%string
                  then hook_complete P res_id md else ret false) (tick w)
                 = (Returns false, tick w)).
  { destruct (String.eqb_spec status "complete"); [contradiction|reflexivity]. }
  pose proof (hook_update_persists _ _ _ _ _ _ _ _ Hacc Hmid eq_refl) as Hrun.
  eexists. unfold shift_hook, bind at 1. rewrite Hrun.
  split; [reflexivity|]. simpl. auto.
Qed.

(** X11: the status "complete", when the host calls succeed and the dates
    settle.  The trace gains, in this order: one [after_upload] per
    registered plugin, in registration order; one call that makes the
    default views; one task update, of the task under its id with the state
    "complete".  All this is done whether or not a resubmission follows. *)
Theorem hook_complete_trace (dd : hook_dict) (w : world) (md : hook_metadata)
        (res_id : string) (task : task_status) (r : resource) (d : package) :
  hook_accepted P dd w md "complete" res_id task ->
  completion_succeeds P w res_id r d ->
  dates_settle P r md ->
  exists resubmit w1 t,
    hook_update P dd w = (Returns (resubmit, res_id), w1) /\
    w_trace w1 =
      (w_trace w ++ after_upload_events (plugins P) r d ++
       [EvCreateViews r d; EvTaskStatusUpdate t])%list /\
    task_id t = Some (row_id task) /\
    task_state t = "complete".
Proof.
  intros Hacc Hok Hs.
  destruct (check_modified_settles r md
              (record_events
                 (after_upload_events (plugins P) r d ++ [EvCreateViews r d])
                 (tick w)) Hs) as (b & Hb).
  rewrite <- (hook_complete_run _ _ w (tick w) r d Hok eq_refl) in Hb at 1.
  exists b. eexists. eexists.
  split; [exact (hook_update_persists _ _ _ _ _ _ _ _ Hacc Hb eq_refl)|].
  simpl. rewrite <- !app_assoc. repeat split; reflexivity.
Qed.

(** X12: the status "complete" for a resource that cannot be fetched.
    The exception of [resource_show] reaches the caller before the task is
    written: its row keeps the state it had, no plugin is notified, and
    only the clock has been read. *)
Theorem hook_resource_gone (dd : hook_dict) (w : world) (md : hook_metadata)
        (res_id : string) (task : task_status) (e : exn) :
  hook_accepted P dd w md "complete" res_id task ->
  resource_show P (w_context w) res_id = inl e ->
  shift_hook P dd w = (Raises e, tick w).
Proof.
  intros Hacc Hshow.
  unfold shift_hook, bind at 1.
  rewrite (hook_update_accepted _ _ _ _ _ _ Hacc).
  unfold bind at 1. simpl.
  unfold hook_complete, bind at 1, get_context. unfold bind at 1, host.
  simpl. now rewrite Hshow.
Qed.

(** X13: the status "complete" when the default views cannot be made.
    The exception reaches the caller after every plugin has been notified
    and before the task is written: the row keeps the state it had. *)
Theorem hook_views_failure (dd : hook_dict) (w : world) (md : hook_metadata)
        (res_id : string) (task : task_status) (r : resource) (d : package)
        (e : exn) :
  hook_accepted P dd w md "complete" res_id task ->
  resource_show P (w_context w) res_id = inr r ->
  package_show P (w_context w) (res_package_id r) = inr d ->
  create_default_resource_views P (w_context w) r d = inl e ->
  exists w',
    shift_hook P dd w = (Raises e, w') /\
    w_tasks w' = w_tasks w /\
    w_trace w' =
      (w_trace w ++ after_upload_events (plugins P) r d
       ++ [EvCreateViews r d])%list.
Proof.
  intros Hacc Hr Hd Hv.
  unfold shift_hook, bind at 1.
  rewrite (hook_update_accepted _ _ _ _ _ _ Hacc).
  unfold bind at 1. simpl.
  unfold hook_complete, bind at 1, get_context. unfold bind at 1, host.
  simpl. rewrite Hr. unfold ret at 1, bind at 1. rewrite Hd.
  unfold ret at 1, bind at 1. rewrite notify_plugins_run.
  unfold bind at 1, emit, bind at 1. simpl. rewrite Hv.
  eexists. split; [reflexivity|]. simpl. now rewrite <- app_assoc.
Qed.

(** X14: authorization comes before the task.  When the caller may not
    submit the resource named in the metadata, [shift_hook] raises
    NotAuthorized and leaves the world as it found it, whether a task
    exists or not. *)
Theorem hook_not_authorized (dd : hook_dict) (w : world) (md : hook_metadata)
        (status res_id : string) :
  hd_metadata dd = Some md ->
  hd_status dd = Some status ->
  md_resource_id md = Some res_id ->
  check_access P "shift_submit" (w_context w) res_id = false ->
  shift_hook P dd w = (Raises NotAuthorized, w).
Proof.
  intros Hmd Hst Hid Hauth.
  unfold shift_hook, hook_update, bind, get_or_bust2, get_or_bust, get_context.
  rewrite Hmd, Hst. simpl. rewrite Hid. simpl. now rewrite Hauth.
Qed.

(** X15: a hook that lacks ['metadata'], ['status'] or the ['resource_id']
    of the metadata raises a ValidationError that names what is missing,
    and leaves the world as it found it. *)
Theorem hook_missing_parameter (dd : hook_dict) (w : world) :
  hd_metadata dd = None \/ hd_status dd = None \/
  (exists md, hd_metadata dd = Some md /\ md_resource_id md = None) ->
  exists errors,
    errors <> [] /\
    shift_hook P dd w = (Raises (ValidationError errors), w).
Proof.
  unfold shift_hook, hook_update, bind, get_or_bust2, get_or_bust.
  intros [Hmd | [Hst | (md & Hmd & Hid)]].
  - rewrite Hmd. eexists. split; [|reflexivity]. simpl. discriminate.
  - rewrite Hst. destruct (hd_metadata dd); eexists;
      (split; [|reflexivity]); simpl; discriminate.
  - rewrite Hmd. destruct (hd_status dd).
    + simpl. rewrite Hid. eexists. split; [|reflexivity]. simpl. discriminate.
    + eexists. split; [|reflexivity]. simpl. discriminate.
Qed.

(** X16: a hook that returns from its task update has set
    ['ignore_auth'] in the context (line 222): the resubmission that may
    follow is checked for access with authorization switched off, and the
    caller's context keeps the flag. *)
Theorem hook_sets_ignore_auth (dd : hook_dict) (w w1 : world) (resubmit : bool)
        (res_id : string) :
  hook_update P dd w = (Returns (resubmit, res_id), w1) ->
  w_context w1 = ignoring_auth (w_context w).
Proof.
  intros Hrun.
  destruct (hook_update_returns _ _ _ _ _ Hrun)
    as (md & status & task & wm & _ & _ & _ & Hc & ->).
  simpl. unfold ignoring_auth. now rewrite Hc.
Qed.

(** After a row is written over by its id with a dict of the same key,
    the lookup by key finds the new content. *)
Lemma find_overwrite_by_id (entity_id task_type key : string)
      (rows : list task_status) (row : task_status) (t : task) :
  find (same_key entity_id task_type key) rows = Some row ->
  task_entity_id t = row_entity_id row ->
  task_task_type t = row_task_type row ->
  task_key t = row_key row ->
  find (same_key entity_id task_type key)
       (overwrite (fun r => (row_id r =? row_id row)%string) t rows)
  = Some (row_of_task (row_id row) t).
Proof.
  intros Hfind He Ht Hk.
  assert (Hkey : forall i, same_key entity_id task_type key (row_of_task i t)
                           = true).
  { intros i. apply find_some in Hfind as (_ & Hs). revert Hs.
    unfold same_key, row_of_task. simpl. now rewrite He, Ht, Hk. }
  induction rows as [|r rows IH]; simpl in *; [discriminate|].
  destruct (same_key entity_id task_type key r) eqn:Hr.
  - injection Hfind as ->. rewrite String.eqb_refl, Hkey. reflexivity.
  - destruct (String.eqb_spec (row_id r) (row_id row)) as [E|N].
    + now rewrite Hkey, E.
    + rewrite Hr. now apply IH.
Qed.

(** X17: the resubmission is not stopped by the duplicate check.  When the
    hook marks a resubmission, the status was "complete" and the task was
    written with that state before [shift_submit] is entered again; so the
    nested call, once it gets past the plugins, finds a task that is not
    "pending" and writes over it under its id. *)
Theorem resubmission_passes_duplicate_check (dd : hook_dict) (w w1 : world)
        (res_id : string) (rs : resolved) (window : Z) :
  hook_update P dd w = (Returns (true, res_id), w1) ->
  fst (submit_resolve P (mk_submit_dict (Some res_id) None None) w1)
    = Returns (Some rs) ->
  rs_res_id rs = res_id ->
  forallb (fun p => can_upload p res_id) (plugins P) = true ->
  assume_task_stale_after P = inr window ->
  exists row,
    fst (task_status_show res_id "shift" "shift" w1) = Returns row /\
    row_state row = "complete" /\
    overwrites_task row w1
      (shift_submit P (mk_submit_dict (Some res_id) None None) w1).
Proof.
  intros Hrun Hres Hid Hall Hwin.
  destruct (hook_update_returns _ _ _ _ _ Hrun)
    as (md & status & task & wm & Hacc & Hmid & Ht & Hc & Hw1).
  destruct (String.eqb_spec status "complete") as [->|N];
    [|discriminate].
  set (t := set_state_and_last_updated task "complete"
              (PyStr (datetime_str P (clock P (w_clock_reads w))))) in *.
  assert (Hshow : fst (task_status_show res_id "shift" "shift" w1)
                  = Returns (row_of_task (row_id task) t)).
  { destruct Hacc as (_ & _ & _ & _ & Hshow). revert Hshow.
    rewrite Hw1. unfold task_status_show. simpl.
    destruct (find _ (w_tasks w)) as [r|] eqn:Hfind; simpl; [|discriminate].
    intros H. injection H as ->.
    now rewrite (find_overwrite_by_id _ _ _ _ task t Hfind). }
  exists (row_of_task (row_id task) t).
  split; [exact Hshow|]. split; [reflexivity|].
  subst res_id.
  eapply submit_proceeds; try eassumption.
  - apply (submit_task_not_pending _ _ (row_of_task (row_id task) t) window);
      [|discriminate|exact Hwin].
    now rewrite (task_status_show_fst _ _ _ _ w1).
  - reflexivity.
  - reflexivity.
  - reflexivity.
Qed.

End Properties.

(** ** The statements on the sample platform *)

(** The window is 3600 seconds when nothing is configured. *)
Lemma default_staleness_window (P : Platform) :
  config_assume_task_stale_after P = None ->
  assume_task_stale_after P = inr (3600 * 1000000).
Proof.
  unfold assume_task_stale_after. intros ->. reflexivity.
Qed.

Lemma pending_task_blocks_submit_witness :
  exists w',
    shift_submit (sample_platform [accepting "A"] (inr sample_resource))
                 sample_submit (sample_world [fresh_row]) = (Returns false, w') /\
    w_tasks w' = [fresh_row] /\
    w_queue w' = [] /\
    writes (w_trace w') = [].
Proof.
  apply (pending_task_blocks_submit
           (sample_platform [accepting "A"] (inr sample_resource))
           sample_submit (sample_world [fresh_row]) sample_resolved fresh_row
           "2023-01-01T00:00:00.500000" 1672531200500000 3600000000);
    try reflexivity.
  vm_compute. discriminate.
Defined.

Lemma plugin_veto_blocks_submit_witness :
  exists before p after w',
    [accepting "A"; refusing "B"; accepting "C"] = (before ++ p :: after)%list /\
    forallb (fun q => can_upload q "res-1") before = true /\
    can_upload p "res-1" = false /\
    shift_submit
      (sample_platform [accepting "A"; refusing "B"; accepting "C"]
                       (inr sample_resource))
      sample_submit (sample_world []) = (Returns false, w') /\
    w_tasks w' = [] /\
    w_queue w' = [] /\
    w_trace w' = ([] ++ can_upload_events (before ++ [p]) "res-1")%list.
Proof.
  apply (plugin_veto_blocks_submit
           (sample_platform [accepting "A"; refusing "B"; accepting "C"]
                            (inr sample_resource))
           sample_submit (sample_world []) sample_resolved); reflexivity.
Defined.

Lemma stale_pending_task_is_overwritten_witness :
  overwrites_task stale_row (sample_world [stale_row])
    (shift_submit (sample_platform [accepting "A"] (inr sample_resource))
                  sample_submit (sample_world [stale_row])).
Proof.
  apply (stale_pending_task_is_overwritten
           (sample_platform [accepting "A"] (inr sample_resource))
           sample_submit (sample_world [stale_row]) sample_resolved stale_row
           "2022-12-31T12:00:00.500000" 1672488000500000 3600000000);
    reflexivity.
Defined.

Lemma submit_resource_not_found_witness :
  shift_submit (sample_platform [accepting "A"] (inl NotFound)) sample_submit
               (sample_world [fresh_row])
  = (Returns false, sample_world [fresh_row]).
Proof.
  apply (submit_resource_not_found
           (sample_platform [accepting "A"] (inl NotFound))
           sample_submit sample_submit "res-1" (sample_world [fresh_row]));
    reflexivity.
Defined.

Lemma hook_without_task_witness :
  shift_hook (sample_platform [accepting "A"] (inr sample_resource))
             (sample_hook "complete") (sample_world [])
  = (Raises NotFound, sample_world []).
Proof.
  apply (hook_without_task
           (sample_platform [accepting "A"] (inr sample_resource))
           (sample_hook "complete") (sample_world []) sample_metadata
           "complete" "res-1"); reflexivity.
Defined.

Lemma other_state_task_is_overwritten_witness :
  overwrites_task failed_row (sample_world [failed_row])
    (shift_submit (sample_platform [accepting "A"] (inr sample_resource))
                  sample_submit (sample_world [failed_row])).
Proof.
  apply (other_state_task_is_overwritten
           (sample_platform [accepting "A"] (inr sample_resource))
           sample_submit (sample_world [failed_row]) sample_resolved failed_row
           3600000000); try reflexivity.
  discriminate.
Defined.





(** C2: [shift_submit] on a resource that has no task, with no plugin.  The
    call returns True and leaves one task, "pending", whose value is the
    job reference; but the ['last_updated'] of the second task update, and
    of the row it leaves, is a one-element tuple holding the timestamp
    (line 145 ends in a comma), where lines 85 and 177 store the string. *)
Theorem submit_stores_a_tuple_as_last_updated :
  exists w',
    shift_submit (sample_platform [] (inr sample_resource)) sample_submit
                 (sample_world []) = (Returns true, w') /\
    w_tasks w' =
      [mk_task_status "task-1" "res-1" "resource" "shift" "shift" "pending"
                      [("job_id", JString "job-1"); ("job_key", JNull)] []
                      (PyTuple1 "2023-01-01 00:30:00.250001")] /\
    updates (w_trace w') =
      [submitting_task (sample_platform [] (inr sample_resource)) None "res-1"
                       1672533000250000;
       mk_task None "res-1" "resource" "shift" "shift" "pending"
               [("job_id", JString "job-1"); ("job_key", JNull)] []
               (PyTuple1 "2023-01-01 00:30:00.250001")] /\
    forall s, map row_last_updated (w_tasks w') <> [PyStr s].
Proof.
  exists (snd (shift_submit (sample_platform [] (inr sample_resource))
                            sample_submit (sample_world []))).
  split; [vm_compute; reflexivity|]. split; [vm_compute; reflexivity|].
  split; [vm_compute; reflexivity|]. intros s. vm_compute. discriminate.
Qed.

(** ** The resubmission cases of the specification, section 8 *)

Example modified_after_creation (w : world) :
  check_modified (sample_platform [] (inr sample_resource))
    (mk_resource "pkg-1" None (Some "2023-01-02T00:00:00"))
    (mk_hook_metadata (Some "res-1") (Some "2023-01-01T00:00:00") None) w
  = (Returns true, w).
Proof. reflexivity. Qed.

Example modified_before_creation (w : world) :
  check_modified (sample_platform [] (inr sample_resource))
    (mk_resource "pkg-1" None (Some "2023-01-01T00:00:00"))
    (mk_hook_metadata (Some "res-1") (Some "2023-01-02T00:00:00") None) w
  = (Returns false, w).
Proof. reflexivity. Qed.

Example url_changed (w : world) :
  check_modified (sample_platform [] (inr sample_resource))
    (mk_resource "pkg-1" (Some "http://a/x.csv") None)
    (mk_hook_metadata (Some "res-1") None (Some "http://a/y.csv")) w
  = (Returns true, w).
Proof. reflexivity. Qed.

Example url_unchanged (w : world) :
  check_modified (sample_platform [] (inr sample_resource))
    (mk_resource "pkg-1" (Some "http://a/x.csv") None)
    (mk_hook_metadata (Some "res-1") None (Some "http://a/x.csv")) w
  = (Returns false, w).
Proof. reflexivity. Qed.

(** A date that does not parse marks nothing, even when the URL changed. *)
Example unparseable_date (w : world) :
  check_modified (sample_platform [] (inr sample_resource))
    (mk_resource "pkg-1" (Some "http://a/x.csv") (Some "yesterday"))
    (mk_hook_metadata (Some "res-1") (Some "2023-01-01T00:00:00")
                      (Some "http://a/y.csv")) w
  = (Returns false, w).
Proof. reflexivity. Qed.

(** ** The further properties on the sample platform *)

Lemma submit_false_writes_nothing_witness :
  w_tasks sample_vetoed_world = [fresh_row] /\
  w_queue sample_vetoed_world = [] /\
  w_context sample_vetoed_world = sample_context /\
  writes (w_trace sample_vetoed_world) = writes [].
Proof.
  apply (submit_false_writes_nothing
           (sample_platform [refusing "B"] (inr sample_resource))
           sample_submit (sample_world [fresh_row]) sample_vetoed_world).
  reflexivity.
Defined.

Lemma submit_true_enqueues_one_job_witness :
  exists rs api_key job_id evs t1 t2,
    fst (submit_resolve (sample_platform [accepting "A"] (inr sample_resource))
                        sample_submit (sample_world []))
      = Returns (Some rs) /\
    user_apikey (rs_user rs) = Some api_key /\
    enqueue_job (sample_platform [accepting "A"] (inr sample_resource)) []
                (job_data rs api_key (task_last_updated t1)) = inr job_id /\
    w_queue sample_submitted_world =
      ([] ++ [job_data rs api_key (task_last_updated t1)])%list /\
    w_trace sample_submitted_world = ([] ++ evs)%list /\
    enqueued evs = [job_data rs api_key (task_last_updated t1)] /\
    updates evs = [t1; t2] /\
    task_state t1 = "submitting" /\
    task_entity_id t1 = rs_res_id rs /\
    task_last_updated t1 = PyStr (sample_datetime_str (1672533000250000 + 0)) /\
    exists last_updated, t2 = pending_task t1 job_id last_updated.
Proof.
  apply (submit_true_enqueues_one_job
           (sample_platform [accepting "A"] (inr sample_resource))
           sample_submit (sample_world []) sample_submitted_world).
  reflexivity.
Defined.

Lemma submit_true_consults_every_plugin_witness :
  exists rs e1 e2 e3,
    fst (submit_resolve (sample_platform [accepting "A"] (inr sample_resource))
                        sample_submit (sample_world []))
      = Returns (Some rs) /\
    forallb (fun p => can_upload p (rs_res_id rs)) [accepting "A"] = true /\
    w_trace sample_submitted_world =
      ([] ++ can_upload_events [accepting "A"] (rs_res_id rs)
       ++ [e1; e2; e3])%list /\
    is_write e1 = true /\ is_write e2 = true /\ is_write e3 = true.
Proof.
  apply (submit_true_consults_every_plugin
           (sample_platform [accepting "A"] (inr sample_resource))
           sample_submit (sample_world []) sample_submitted_world).
  reflexivity.
Defined.

Lemma submit_true_sets_ignore_auth_witness :
  ctx_ignore_auth (w_context sample_submitted_world) = true /\
  ctx_user (w_context sample_submitted_world) = Some "editor" /\
  ctx_schema (w_context sample_submitted_world) = None.
Proof.
  apply (submit_true_sets_ignore_auth
           (sample_platform [accepting "A"] (inr sample_resource))
           sample_submit (sample_world []) sample_submitted_world).
  reflexivity.
Defined.

Lemma submit_validation_error_witness :
  shift_submit (sample_platform [accepting "A"] (inr sample_resource))
               (mk_submit_dict None (Some true) None) (sample_world [])
  = (Raises (ValidationError [("resource_id", "Missing value")]),
     sample_world []).
Proof.
  apply (submit_validation_error
           (sample_platform [accepting "A"] (inr sample_resource))
           (mk_submit_dict None (Some true) None)
           (mk_submit_dict None (Some true) None)
           [("resource_id", "Missing value")] (sample_world []));
    [reflexivity | discriminate].
Defined.

Lemma submit_not_authorized_witness :
  shift_submit (sample_platform [accepting "A"] (inl NotFound)) sample_submit
               (visitor_world [])
  = (Raises NotAuthorized, visitor_world []).
Proof.
  apply (submit_not_authorized
           (sample_platform [accepting "A"] (inl NotFound))
           sample_submit sample_submit "res-1" (visitor_world []));
    reflexivity.
Defined.

Lemma submit_creates_one_task_witness :
  exists w',
    shift_submit (sample_platform [accepting "A"] (inr sample_resource))
                 sample_submit (sample_world []) = (Returns true, w') /\
    w_tasks w' =
      ([] ++
       [row_of_task "task-1"
          (pending_task
             (submitting_task
                (sample_platform [accepting "A"] (inr sample_resource)) None
                "res-1" 1672533000250000)
             "job-1" (PyTuple1 "2023-01-01 00:30:00.250001"))])%list.
Proof.
  apply (submit_creates_one_task
           (sample_platform [accepting "A"] (inr sample_resource))
           sample_submit (sample_world []) sample_resolved "key-1" "job-1");
    reflexivity.
Defined.

Lemma enqueue_failure_leaves_submitting_witness :
  exists e' w',
    shift_submit
      (sample_platform_with queue_down (fun _ _ _ => inr tt)
                            (inr sample_resource))
      sample_submit (sample_world []) = (Raises e', w') /\
    w_queue w' = [] /\
    w_tasks w' =
      ([] ++
       [row_of_task "task-1"
          (submitting_task
             (sample_platform_with queue_down (fun _ _ _ => inr tt)
                                   (inr sample_resource))
             None "res-1" 1672533000250000)])%list.
Proof.
  apply (enqueue_failure_leaves_submitting
           (sample_platform_with queue_down (fun _ _ _ => inr tt)
                                 (inr sample_resource))
           sample_submit (sample_world []) sample_resolved "key-1"
           (HostError "queue down")); reflexivity.
Defined.

Lemma submit_unreadable_last_updated_witness :
  exists w',
    shift_submit (sample_platform [accepting "A"] (inr sample_resource))
                 sample_submit (sample_world [unreadable_row])
    = (Raises ValueError, w') /\
    w_tasks w' = [unreadable_row] /\
    w_queue w' = [] /\
    writes (w_trace w') = writes [].
Proof.
  apply (submit_unreadable_last_updated
           (sample_platform [accepting "A"] (inr sample_resource))
           sample_submit (sample_world [unreadable_row]) sample_resolved
           unreadable_row "2023-01-01T00:00:00" 3600000000); reflexivity.
Defined.

Lemma hook_other_status_witness :
  exists w1,
    shift_hook (sample_platform [accepting "A"] (inr modified_resource))
               (sample_hook "error") (sample_world [fresh_row])
    = (Returns tt, w1) /\
    w_trace w1 =
      ([] ++
       [EvTaskStatusUpdate
          (set_state_and_last_updated fresh_row "error"
             (PyStr "2023-01-01 00:30:00.250000"))])%list /\
    w_queue w1 = [].
Proof.
  apply (hook_other_status
           (sample_platform [accepting "A"] (inr modified_resource))
           (sample_hook "error") (sample_world [fresh_row]) sample_metadata
           "error" "res-1" fresh_row).
  - repeat split; reflexivity.
  - discriminate.
Defined.

Lemma hook_complete_trace_witness :
  exists resubmit w1 t,
    hook_update
      (sample_platform_with queue_down (fun _ _ _ => inr tt)
                            (inr modified_resource))
      (sample_hook "complete") (sample_world [fresh_row])
    = (Returns (resubmit, "res-1"), w1) /\
    w_trace w1 =
      ([] ++
       after_upload_events [accepting "A"; accepting "B"] modified_resource
                           (mk_package "pkg-1") ++
       [EvCreateViews modified_resource (mk_package "pkg-1");
        EvTaskStatusUpdate t])%list /\
    task_id t = Some "task-1" /\
    task_state t = "complete".
Proof.
  apply (hook_complete_trace
           (sample_platform_with queue_down (fun _ _ _ => inr tt)
                                 (inr modified_resource))
           (sample_hook "complete") (sample_world [fresh_row]) sample_metadata
           "res-1" fresh_row modified_resource (mk_package "pkg-1")).
  - repeat split; reflexivity.
  - repeat split; reflexivity.
  - intros lm tc E1 _ E2 _. injection E1 as <-. injection E2 as <-.
    right. eexists. split; [reflexivity|].
    right. eexists. split; reflexivity.
Defined.

Lemma hook_resource_gone_witness :
  shift_hook (sample_platform [accepting "A"] (inl NotFound))
             (sample_hook "complete") (sample_world [fresh_row])
  = (Raises NotFound, tick (sample_world [fresh_row])).
Proof.
  apply (hook_resource_gone
           (sample_platform [accepting "A"] (inl NotFound))
           (sample_hook "complete") (sample_world [fresh_row]) sample_metadata
           "res-1" fresh_row NotFound).
  - repeat split; reflexivity.
  - reflexivity.
Defined.

Lemma hook_views_failure_witness :
  exists w',
    shift_hook
      (sample_platform_with queue_down
         (fun _ _ _ => inl (HostError "no view plugin"))
         (inr modified_resource))
      (sample_hook "complete") (sample_world [fresh_row])
    = (Raises (HostError "no view plugin"), w') /\
    w_tasks w' = [fresh_row] /\
    w_trace w' =
      ([] ++
       after_upload_events [accepting "A"; accepting "B"] modified_resource
                           (mk_package "pkg-1")
       ++ [EvCreateViews modified_resource (mk_package "pkg-1")])%list.
Proof.
  apply (hook_views_failure
           (sample_platform_with queue_down
              (fun _ _ _ => inl (HostError "no view plugin"))
              (inr modified_resource))
           (sample_hook "complete") (sample_world [fresh_row]) sample_metadata
           "res-1" fresh_row modified_resource (mk_package "pkg-1")
           (HostError "no view plugin")); try reflexivity.
  repeat split; reflexivity.
Defined.

Lemma hook_not_authorized_witness :
  shift_hook (sample_platform [accepting "A"] (inr sample_resource))
             (sample_hook "complete") (visitor_world [fresh_row])
  = (Raises NotAuthorized, visitor_world [fresh_row]).
Proof.
  apply (hook_not_authorized
           (sample_platform [accepting "A"] (inr sample_resource))
           (sample_hook "complete") (visitor_world [fresh_row]) sample_metadata
           "complete" "res-1"); reflexivity.
Defined.

Lemma hook_missing_parameter_witness :
  exists errors,
    errors <> [] /\
    shift_hook (sample_platform [accepting "A"] (inr sample_resource))
               (mk_hook_dict (Some sample_metadata) None)
               (sample_world [fresh_row])
    = (Raises (ValidationError errors), sample_world [fresh_row]).
Proof.
  apply (hook_missing_parameter
           (sample_platform [accepting "A"] (inr sample_resource))
           (mk_hook_dict (Some sample_metadata) None)
           (sample_world [fresh_row])).
  right. left. reflexivity.
Defined.

Lemma hook_sets_ignore_auth_witness :
  w_context sample_updated_world = ignoring_auth sample_context.
Proof.
  apply (hook_sets_ignore_auth
           (sample_platform [accepting "A"] (inr modified_resource))
           (sample_hook "complete") (sample_world [fresh_row])
           sample_updated_world true "res-1").
  reflexivity.
Defined.

Lemma resubmission_passes_duplicate_check_witness :
  exists row,
    fst (task_status_show "res-1" "shift" "shift" sample_updated_world)
      = Returns row /\
    row_state row = "complete" /\
    overwrites_task row sample_updated_world
      (shift_submit (sample_platform [accepting "A"] (inr modified_resource))
                    (mk_submit_dict (Some "res-1") None None)
                    sample_updated_world).
Proof.
  apply (resubmission_passes_duplicate_check
           (sample_platform [accepting "A"] (inr modified_resource))
           (sample_hook "complete") (sample_world [fresh_row])
           sample_updated_world "res-1" resubmit_resolved 3600000000);
    reflexivity.
Defined.

Lemma submit_without_api_key_witness :
  exists w',
    shift_submit (sample_site (Some "http://ckan.example") (mk_user None))
                 sample_submit (sample_world [])
    = (Raises (KeyError "apikey"), w') /\
    w_queue w' = [] /\
    w_tasks w' =
      ([] ++
       [row_of_task "task-1"
          (submitting_task
             (sample_site (Some "http://ckan.example") (mk_user None))
             None "res-1" 1672533000250000)])%list.
Proof.
  apply (submit_without_api_key
           (sample_site (Some "http://ckan.example") (mk_user None))
           sample_submit (sample_world [])
           (mk_resolved sample_submit "res-1" sample_resource
                        "http://ckan.example" (mk_user None)));
    reflexivity.
Defined.

Lemma submit_without_site_url_witness :
  shift_submit (sample_site None (mk_user (Some "key-1"))) sample_submit
               (sample_world [fresh_row])
  = (Raises (KeyError "ckan.site_url"), sample_world [fresh_row]).
Proof.
  apply (submit_without_site_url
           (sample_site None (mk_user (Some "key-1")))
           sample_submit sample_submit "res-1" (sample_world [fresh_row])
           sample_resource); reflexivity.
Defined.
